(** * RTMP streaming output plugin (freeseer/plugins/output/rtmp_streaming)

    A shallow embedding of [RTMPOutput] and [JustinApi] from
    [src/freeseer/plugins/output/rtmp_streaming/__init__.py], and the
    properties of the pipeline builder, the metadata helpers and the
    Justin.tv client that the specification states.

    Python objects are records, [dict]s are [gmap string _], exceptions are
    an explicit outcome, and the mutable plugin object is threaded through a
    state-and-exception monad.  GStreamer, oauth, httplib, simplejson and
    pickle are outside the repository: they appear as the fields of a
    [World] record that every operation takes as its first argument. *)

From stdpp Require Import gmap strings list fin_maps.
From Stdlib Require Import ZArith.

(** ** Python values, exceptions and outcomes *)

Inductive exn :=
| AttributeError (obj attr : string)
| KeyError (key : string)
| IndexError
| TypeError
| ValueError
| UnpicklingError
| JSONDecodeError
| IOError
| ElementNotFoundError (factory : string).

Inductive outcome (A : Type) :=
| Ret (a : A)
| Raise (e : exn).
Arguments Ret {A} a.
Arguments Raise {A} e.

Global Instance outcome_ret : MRet outcome := λ A a, Ret a.
Global Instance outcome_bind : MBind outcome := λ A B f m,
  match m with Ret a => f a | Raise e => Raise e end.

Definition is_raise {A} (o : outcome A) : bool :=
  match o with Ret _ => false | Raise _ => true end.

(** The few kinds of attribute value the class bodies of the module hold. *)
Inductive value :=
| VNone
| VInt (z : Z)
| VStr (s : string)
| VList (l : list string)
| VClass (name : string)
| VObject.

(** Iterating a value ([for k in v]): lists give their items, a string its
    characters, anything else is not iterable. *)
Definition iterate (v : value) : outcome (list string) :=
  match v with
  | VList l => Ret l
  | VStr s => Ret ((λ c, String c EmptyString) <$> String.list_ascii_of_string s)
  | _ => Raise TypeError
  end.

(** [sep.join(items)] *)
Fixpoint join (sep : string) (items : list string) : string :=
  match items with
  | [] => ""
  | [x] => x
  | x :: rest => x +:+ sep +:+ join sep rest
  end.

(** [x in items] on a list of strings *)
Definition py_in (x : string) (items : list string) : bool :=
  bool_decide (x ∈ items).

(** ** Module constants (lines 121-126) *)

Definition TUNE_VALUES : list string :=
  ["none"; "film"; "animation"; "grain"; "stillimage"; "psnr"; "ssim";
   "fastdecode"; "zerolatency"].
Definition AUDIO_CODEC_VALUES : list string := ["lame"; "faac"].
Definition STREAMING_DESTINATION_VALUES : list string := ["custom"; "justin.tv"].
Definition JUSTIN_URL : string := "rtmp://live-3c.justin.tv/app/".
Definition STATUS_KEYS : list string := ["artist"; "title"].
Definition DESCRIPTION_KEY : string := "comment".

(** [seq[i]] on a list of strings *)
Definition subscript (l : list string) (i : nat) : outcome string :=
  match l !! i with Some x => Ret x | None => Raise IndexError end.

(** ** RTMPOutputConfig (lines 129-142) *)

Record RTMPOutputConfig := {
  url : string;
  audio_quality : Z;
  video_bitrate : Z;
  video_tune : string;
  audio_codec : string;
  streaming_destination : string;
  streaming_key : string;
  consumer_key : string;
  consumer_secret : string;
  authorization_url : string;
  use_justin_api : string;
  justin_api_persistent : string
}.

(** The option defaults of the class body. *)
Definition default_config : RTMPOutputConfig := {|
  url := "";
  audio_quality := 3;
  video_bitrate := 2400;
  video_tune := "none";
  audio_codec := "lame";
  streaming_destination := "custom";
  streaming_key := "";
  consumer_key := "";
  consumer_secret := "";
  authorization_url := "";
  use_justin_api := "no";
  justin_api_persistent := ""
|}.

Definition with_audio_codec (c : RTMPOutputConfig) (v : string) : RTMPOutputConfig :=
  {| url := url c; audio_quality := audio_quality c; video_bitrate := video_bitrate c;
     video_tune := video_tune c; audio_codec := v;
     streaming_destination := streaming_destination c;
     streaming_key := streaming_key c; consumer_key := consumer_key c;
     consumer_secret := consumer_secret c;
     authorization_url := authorization_url c;
     use_justin_api := use_justin_api c;
     justin_api_persistent := justin_api_persistent c |}.

Definition with_video_tune (c : RTMPOutputConfig) (v : string) : RTMPOutputConfig :=
  {| url := url c; audio_quality := audio_quality c; video_bitrate := video_bitrate c;
     video_tune := v; audio_codec := audio_codec c;
     streaming_destination := streaming_destination c;
     streaming_key := streaming_key c; consumer_key := consumer_key c;
     consumer_secret := consumer_secret c;
     authorization_url := authorization_url c;
     use_justin_api := use_justin_api c;
     justin_api_persistent := justin_api_persistent c |}.

Definition with_consumer_key (c : RTMPOutputConfig) (v : string) : RTMPOutputConfig :=
  {| url := url c; audio_quality := audio_quality c; video_bitrate := video_bitrate c;
     video_tune := video_tune c; audio_codec := audio_codec c;
     streaming_destination := streaming_destination c;
     streaming_key := streaming_key c; consumer_key := v;
     consumer_secret := consumer_secret c;
     authorization_url := authorization_url c;
     use_justin_api := use_justin_api c;
     justin_api_persistent := justin_api_persistent c |}.

Definition with_consumer_secret (c : RTMPOutputConfig) (v : string) : RTMPOutputConfig :=
  {| url := url c; audio_quality := audio_quality c; video_bitrate := video_bitrate c;
     video_tune := video_tune c; audio_codec := audio_codec c;
     streaming_destination := streaming_destination c;
     streaming_key := streaming_key c; consumer_key := consumer_key c;
     consumer_secret := v;
     authorization_url := authorization_url c;
     use_justin_api := use_justin_api c;
     justin_api_persistent := justin_api_persistent c |}.

Definition with_justin_api_persistent (c : RTMPOutputConfig) (v : string) : RTMPOutputConfig :=
  {| url := url c; audio_quality := audio_quality c; video_bitrate := video_bitrate c;
     video_tune := video_tune c; audio_codec := audio_codec c;
     streaming_destination := streaming_destination c;
     streaming_key := streaming_key c; consumer_key := consumer_key c;
     consumer_secret := consumer_secret c;
     authorization_url := authorization_url c;
     use_justin_api := use_justin_api c;
     justin_api_persistent := v |}.

Definition with_destination (c : RTMPOutputConfig) (dest use_api : string) : RTMPOutputConfig :=
  {| url := url c; audio_quality := audio_quality c; video_bitrate := video_bitrate c;
     video_tune := video_tune c; audio_codec := audio_codec c;
     streaming_destination := dest;
     streaming_key := streaming_key c; consumer_key := consumer_key c;
     consumer_secret := consumer_secret c;
     authorization_url := authorization_url c;
     use_justin_api := use_api;
     justin_api_persistent := justin_api_persistent c |}.

(** ** The world outside the repository

    GStreamer's registry, the oauth token parser, the HTTP server, the JSON
    decoder and pickle are not code of this repository; their answers are
    the fields of a [World]. *)

Record World := {
  (** [gst.element_factory_make] finds the factory in the registry *)
  installed : string → bool;
  (** [element.get_property_names()] of an element made by the factory *)
  property_names : string → list string;
  (** [gst.tag_exists] *)
  tag_exists : string → bool;
  (** [oauth.OAuthToken.from_string] parses the string; it raises
      [KeyError] on a string without the token fields *)
  token_ok : string → bool;
  (** the body the server answers to a request (method, url) *)
  http : string → string → outcome string;
  (** [simplejson.loads]: the decoded object, [None] when the decoder
      raises [JSONDecodeError] *)
  json_loads : string → option (list (string * string));
  (** [pickle.loads]: the pickled sequence, [None] when it does not load *)
  pickle_loads : string → option (list string);
  pickle_dumps : list string → string;
  (** [OAuthRequest.from_token_and_callback(...).to_url()] for a token *)
  authorize_url : string → string
}.

(** ** The processing graph *)

Inductive TagMergeMode :=
| GST_TAG_MERGE_UNDEFINED
| GST_TAG_MERGE_REPLACE_ALL
| GST_TAG_MERGE_REPLACE
| GST_TAG_MERGE_APPEND
| GST_TAG_MERGE_PREPEND
| GST_TAG_MERGE_KEEP
| GST_TAG_MERGE_KEEP_ALL.

(** [gst.TagMergeMode.__enum_values__], by numeric value *)
Definition TagMergeMode_enum_values : list TagMergeMode :=
  [GST_TAG_MERGE_UNDEFINED; GST_TAG_MERGE_REPLACE_ALL; GST_TAG_MERGE_REPLACE;
   GST_TAG_MERGE_APPEND; GST_TAG_MERGE_PREPEND; GST_TAG_MERGE_KEEP;
   GST_TAG_MERGE_KEEP_ALL].

Record Element := {
  el_name : string;
  el_factory : string;
  el_props : list (string * value);
  (** what [merge_tags] was given *)
  el_tags : option (gmap string string * TagMergeMode);
  (** what [set_tag_merge_mode] was given *)
  el_merge_mode : option TagMergeMode
}.

Record GhostPad := {
  gp_name : string;
  gp_element : string;
  gp_pad : string
}.

Record Bin := {
  elements : list Element;
  ghost_pads : list GhostPad;
  links : list (string * string)
}.

Definition empty_bin : Bin := {| elements := []; ghost_pads := []; links := [] |}.

Definition set_property (e : Element) (name : string) (v : value) : Element :=
  {| el_name := el_name e; el_factory := el_factory e;
     el_props := el_props e ++ [(name, v)];
     el_tags := el_tags e; el_merge_mode := el_merge_mode e |}.

Definition merge_tags (e : Element) (t : gmap string string) (mode : TagMergeMode) : Element :=
  {| el_name := el_name e; el_factory := el_factory e; el_props := el_props e;
     el_tags := Some (t, mode); el_merge_mode := el_merge_mode e |}.

Definition set_tag_merge_mode (e : Element) (mode : TagMergeMode) : Element :=
  {| el_name := el_name e; el_factory := el_factory e; el_props := el_props e;
     el_tags := el_tags e; el_merge_mode := Some mode |}.

Definition bin_add (b : Bin) (e : Element) : Bin :=
  {| elements := elements b ++ [e]; ghost_pads := ghost_pads b; links := links b |}.

Definition bin_add_pad (b : Bin) (p : GhostPad) : Bin :=
  {| elements := elements b; ghost_pads := ghost_pads b ++ [p]; links := links b |}.

(** [src.link(dst)] *)
Definition link (b : Bin) (src dst : Element) : Bin :=
  {| elements := elements b; ghost_pads := ghost_pads b;
     links := links b ++ [(el_name src, el_name dst)] |}.

(** [bin.get_by_name(name)] *)
Definition get_by_name (b : Bin) (name : string) : option Element :=
  List.find (λ e, String.eqb (el_name e) name) (elements b).

(** ** Plugin state *)

Record JustinApi := {
  (** the attribute [config] of the instance with its two fields; no
      statement of the class creates it *)
  api_config : option (string * string);
  request_token_str : string;
  access_token_str : string;
  (** whether [set_save_method] has stored the callback, which in this
      module is always [RTMPOutput.set_justin_api_persistent] *)
  save_method : bool
}.

Inductive event :=
| LogDebug (msg : string)
| LogError (msg : string)
| HttpRequest (method url : string) (payload : list (string * string))
| ConfigSave
| SetChannelStatus (status description : string).

Record Plugin := {
  config : RTMPOutputConfig;
  (** the persisted copy of the record, written by [config.save()] *)
  saved : RTMPOutputConfig;
  tags : option (gmap string string);
  justin_api : option JustinApi;
  (** attributes assigned on the instance besides the fields above *)
  attrs : gmap string value;
  (** what the logger, the network and the platform client were asked *)
  trace : list event;
  (** whether the name [simplejson.decoder.JSONDecodeError] has been bound
      to a caught [KeyError], by the except clause of [get_data] *)
  decode_error_rebound : bool
}.

Definition new_plugin (c : RTMPOutputConfig) : Plugin :=
  {| config := c; saved := c; tags := None; justin_api := None;
     attrs := ∅; trace := []; decode_error_rebound := false |}.

Definition set_config (c : RTMPOutputConfig) (p : Plugin) : Plugin :=
  {| config := c; saved := saved p; tags := tags p; justin_api := justin_api p;
     attrs := attrs p; trace := trace p;
     decode_error_rebound := decode_error_rebound p |}.
Definition set_saved (c : RTMPOutputConfig) (p : Plugin) : Plugin :=
  {| config := config p; saved := c; tags := tags p; justin_api := justin_api p;
     attrs := attrs p; trace := trace p;
     decode_error_rebound := decode_error_rebound p |}.
Definition set_tags (t : option (gmap string string)) (p : Plugin) : Plugin :=
  {| config := config p; saved := saved p; tags := t; justin_api := justin_api p;
     attrs := attrs p; trace := trace p;
     decode_error_rebound := decode_error_rebound p |}.
Definition set_justin_api (a : option JustinApi) (p : Plugin) : Plugin :=
  {| config := config p; saved := saved p; tags := tags p; justin_api := a;
     attrs := attrs p; trace := trace p;
     decode_error_rebound := decode_error_rebound p |}.
Definition set_attr (name : string) (v : value) (p : Plugin) : Plugin :=
  {| config := config p; saved := saved p; tags := tags p;
     justin_api := justin_api p; attrs := <[name := v]> (attrs p);
     trace := trace p; decode_error_rebound := decode_error_rebound p |}.
Definition add_event (e : event) (p : Plugin) : Plugin :=
  {| config := config p; saved := saved p; tags := tags p;
     justin_api := justin_api p; attrs := attrs p; trace := trace p ++ [e];
     decode_error_rebound := decode_error_rebound p |}.
Definition rebind_decode_error (p : Plugin) : Plugin :=
  {| config := config p; saved := saved p; tags := tags p;
     justin_api := justin_api p; attrs := attrs p; trace := trace p;
     decode_error_rebound := true |}.

(** ** The state-and-exception monad of the methods

    A method runs on the plugin object, changes it in place and either
    returns or raises; what it changed before raising stays changed. *)

Definition M (A : Type) : Type := Plugin → outcome A * Plugin.

Global Instance M_ret : MRet M := λ A a p, (Ret a, p).
Global Instance M_bind : MBind M := λ A B f m p,
  match m p with
  | (Ret a, p') => f a p'
  | (Raise e, p') => (Raise e, p')
  end.
Global Instance M_throw : MThrow exn M := λ A e p, (Raise e, p).

Definition get_self : M Plugin := λ p, (Ret p, p).
Definition modify (f : Plugin → Plugin) : M unit := λ p, (Ret (), f p).
Definition emit (e : event) : M unit := modify (add_event e).
Definition lift {A} (o : outcome A) : M A := λ p, (o, p).

(** [try: body  except KeyError: handler] *)
Definition try_except_KeyError {A} (body handler : M A) : M A := λ p,
  match body p with
  | (Raise (KeyError _), p') => handler p'
  | r => r
  end.

Definition get_config : M RTMPOutputConfig := λ p, (Ret (config p), p).

(** [for x in l: body] *)
Fixpoint for_each {A} (l : list A) (body : A → M unit) : M unit :=
  match l with
  | [] => mret ()
  | x :: rest => body x;; for_each rest body
  end.

(** ** Attribute lookup

    [obj.name] looks in the instance, then in the class and its bases. *)

Fixpoint assoc {V} (name : string) (l : list (string * V)) : option V :=
  match l with
  | [] => None
  | (k, v) :: rest => if bool_decide (k = name) then Some v else assoc name rest
  end.

Definition instance_getattr (cls : string) (class_dict : list (string * value))
    (inst : gmap string value) (name : string) : outcome value :=
  match inst !! name with
  | Some v => Ret v
  | None =>
      match assoc name class_dict with
      | Some v => Ret v
      | None => Raise (AttributeError cls name)
      end
  end.

(** The class body of [RTMPOutput] (lines 145-611): its data attributes
    and its methods. *)
Definition RTMPOutput_class : list (string * value) :=
  [("name", VStr "RTMP Streaming");
   ("os", VList ["linux"; "linux2"; "win32"; "cygwin"]);
   ("type", VObject);
   ("recordto", VObject);
   ("tags", VNone);
   ("justin_api", VNone);
   ("streaming_destination_widget", VNone);
   ("load_config_delegate", VNone);
   ("CONFIG_CLASS", VClass "RTMPOutputConfig");
   ("get_output_bin", VObject);
   ("get_talk_status", VObject);
   ("get_description", VObject);
   ("set_metadata", VObject);
   ("load_config", VObject);
   ("get_stream_settings_widget", VObject);
   ("setup_streaming_destination_widget", VObject);
   ("get_justin_widget", VObject);
   ("get_widget", VObject);
   ("load_streaming_destination_widget", VObject);
   ("widget_load_config", VObject);
   ("justin_widget_load_config", VObject);
   ("unlock_stream_settings", VObject);
   ("stream_settings_load_config", VObject);
   ("set_stream_url", VObject);
   ("set_audio_quality", VObject);
   ("set_video_bitrate", VObject);
   ("set_video_tune", VObject);
   ("set_audio_codec", VObject);
   ("set_streaming_dest", VObject);
   ("set_streaming_key", VObject);
   ("set_use_justin_api", VObject);
   ("toggle_consumer_key_secret_fields", VObject);
   ("set_consumer_key", VObject);
   ("set_consumer_secret", VObject);
   ("set_justin_api_persistent", VObject);
   ("apply_justin_settings", VObject)].

(** Modelled from the spec: the base class [IOutput] of
    [freeseer.framework.plugin], which is not under src/.  The spec (section
    9) gives the host plugin interface as the capability contract "build
    pipeline, get settings widget, load configuration"; the module itself
    reads [IOutput.BOTH] and [IOutput.STREAM] and the instance attributes
    [config], [gui] and [widget]. *)
Definition IOutput_class : list (string * value) :=
  [("BOTH", VObject); ("STREAM", VObject);
   ("get_output_bin", VObject); ("get_widget", VObject);
   ("load_config", VObject);
   ("config", VObject); ("gui", VObject); ("widget", VNone)].

(** [self.name] for a name that is none of the fields of [Plugin] *)
Definition getattr (self : Plugin) (name : string) : outcome value :=
  instance_getattr "RTMPOutput" (RTMPOutput_class ++ IOutput_class)
    (attrs self) name.

(** ** Metadata helpers (lines 255-277) *)

(** [metadata[key]] *)
Definition getitem (metadata : gmap string string) (key : string) : outcome string :=
  match metadata !! key with
  | Some v => Ret v
  | None => Raise (KeyError key)
  end.

(** [metadata[key]] for a key read from an attribute: only a string can be
    a key of the mapping, and a list is not hashable. *)
Definition getitem_value (metadata : gmap string string) (key : value) : outcome string :=
  match key with
  | VStr k => getitem metadata k
  | VList _ => Raise TypeError
  | _ => Raise (KeyError "")
  end.

(** [not metadata]: [None] and the empty mapping are false. *)
Definition py_not (metadata : option (gmap string string)) : bool :=
  match metadata with
  | None => true
  | Some m => bool_decide (m = ∅)
  end.

Definition get_talk_status (self : Plugin) (metadata : option (gmap string string))
    : outcome string :=
  match metadata with
  | Some m =>
      if py_not metadata then Ret ""
      else
        keys ← getattr self "STATUS_KEYS";
        status_keys ← iterate keys;
        fields ← mapM (getitem m) status_keys;
        mret (join " - " fields)
  | None => Ret ""
  end.

Definition get_description (self : Plugin) (metadata : option (gmap string string))
    : outcome string :=
  match metadata with
  | Some m =>
      if py_not metadata then Ret ""
      else
        key ← getattr self "DESCRIPTION_KEY";
        getitem_value m key
  | None => Ret ""
  end.

(** [data.keys()] *)
Definition dict_keys (data : gmap string string) : list string :=
  (map_to_list data).*1.

(** [self.tags[tag] = v] *)
Definition tags_setitem (tag v : string) : M unit := λ p,
  match tags p with
  | Some t => (Ret (), set_tags (Some (<[tag := v]> t)) p)
  | None => (Raise TypeError, p)
  end.

Definition set_metadata (w : World) (data : gmap string string) : M unit :=
  modify (set_tags (Some ∅));;
  for_each (dict_keys data) (λ tag,
    if tag_exists w tag then
      v ← lift (getitem data tag);
      tags_setitem tag v
    else mret ()).

(** ** JustinApi (lines 614-744) *)

Definition JustinApi_addr : string := "api.justin.tv".

Definition JustinApi_class : list (string * value) :=
  [("addr", VStr JustinApi_addr);
   ("open_request", VObject);
   ("from_string", VObject);
   ("__init__", VObject);
   ("set_save_method", VObject);
   ("obtain_access_token", VObject);
   ("get_data", VObject);
   ("set_data", VObject);
   ("set_channel_status", VObject);
   ("to_string", VObject)].

(** [JustinApi(consumer_key, consumer_secret, request_token_str,
    access_token_str)]: a new instance, with no attribute of its own yet, is
    handed to [__init__], whose first statement reads [self.config]. *)
Definition JustinApi_init (consumer_key consumer_secret request_token_str
    access_token_str : string) : outcome JustinApi :=
  let self : gmap string value := ∅ in
  _ ← instance_getattr "JustinApi" JustinApi_class self "config";
  mret {| api_config := Some (consumer_key, consumer_secret);
          request_token_str := request_token_str;
          access_token_str := access_token_str;
          save_method := false |}.

(** [oauth.OAuthToken.from_string(s)] *)
Definition parse_token (w : World) (s : string) : M unit :=
  if token_ok w s then mret () else mthrow (KeyError "oauth_token").

(** [connection.request(method, url, ...)] and
    [connection.getresponse().read()] *)
Definition http_request (w : World) (method url : string)
    (payload : list (string * string)) : M string :=
  emit (HttpRequest method url payload);;
  lift (http w method url).

Definition JustinApi_open_request (w : World) (consumer_key consumer_secret : string)
    : M (string * JustinApi) :=
  let url := "http://" +:+ JustinApi_addr +:+ "/oauth/request_token" in
  result ← http_request w "GET" url [];
  parse_token w result;;
  let auth_url := authorize_url w result in
  api ← lift (JustinApi_init consumer_key consumer_secret result "");
  mret (auth_url, api).

Definition JustinApi_from_string (w : World) (persistent_obj : string)
    : outcome JustinApi :=
  match pickle_loads w persistent_obj with
  | None => Raise UnpicklingError
  | Some [consumer_key; consumer_secret; request_token_str; access_token_str] =>
      JustinApi_init consumer_key consumer_secret request_token_str
        access_token_str
  | Some _ => Raise ValueError
  end.

(** The methods below run on the instance held in [self.justin_api], the
    only place where the module keeps one. *)
Definition api_self : M JustinApi := λ p,
  match justin_api p with
  | Some a => (Ret a, p)
  | None => (Raise (AttributeError "NoneType" "self"), p)
  end.

(** [self.config.consumer_key, self.config.consumer_secret] *)
Definition api_consumer : M (string * string) :=
  a ← api_self;
  match api_config a with
  | Some c => mret c
  | None => mthrow (AttributeError "JustinApi" "config")
  end.

Definition set_access_token_str (v : string) (a : JustinApi) : JustinApi :=
  {| api_config := api_config a; request_token_str := request_token_str a;
     access_token_str := v; save_method := save_method a |}.
Definition set_save_method_attr (a : JustinApi) : JustinApi :=
  {| api_config := api_config a; request_token_str := request_token_str a;
     access_token_str := access_token_str a; save_method := true |}.

Definition modify_api (f : JustinApi → JustinApi) : M unit :=
  a ← api_self;
  modify (set_justin_api (Some (f a))).

(** [JustinApi.to_string] (lines 744-745): the pickle of the consumer key
    and secret, read through [self.config], and of the two token strings. *)
Definition to_string (w : World) : M string :=
  a ← api_self;
  c ← api_consumer;
  mret (pickle_dumps w [c.1; c.2; request_token_str a; access_token_str a]).

(** Modelled from the spec: [Config.save] of [freeseer.framework.config],
    which is not under src/.  The spec (section 3) has the record
    "persisted immediately on each field change". *)
Definition config_save : M unit :=
  modify (λ p, set_saved (config p) p);;
  emit ConfigSave.

(** [RTMPOutput.set_consumer_key] and [RTMPOutput.set_consumer_secret]
    (lines 573-579) *)
Definition set_consumer_key (text : string) : M unit :=
  modify (λ p, set_config (with_consumer_key (config p) text) p);;
  config_save.

Definition set_consumer_secret (text : string) : M unit :=
  modify (λ p, set_config (with_consumer_secret (config p) text) p);;
  config_save.

(** [RTMPOutput.set_justin_api_persistent] (lines 581-583): the
    assignment is to [self.justin_api_persistent]. *)
Definition set_justin_api_persistent (text : string) : M unit :=
  modify (set_attr "justin_api_persistent" (VStr text));;
  config_save.

(** [self.save_method(self.to_string())] *)
Definition call_save_method (w : World) : M unit :=
  a ← api_self;
  if save_method a then
    text ← to_string w;
    set_justin_api_persistent text
  else mthrow (AttributeError "JustinApi" "save_method").

Definition set_save_method (w : World) : M unit :=
  modify_api set_save_method_attr;;
  call_save_method w.

Definition obtain_access_token (w : World) : M unit :=
  try_except_KeyError
    (_ ← api_consumer;
     a ← api_self;
     parse_token w (request_token_str a);;
     let url := "http://" +:+ JustinApi_addr +:+ "/oauth/access_token" in
     result ← http_request w "GET" url [];
     modify_api (set_access_token_str result);;
     parse_token w result;;
     call_save_method w)
    (emit (LogError "justin.tv API: failed to obtain an access token")).

(** [simplejson.loads(result)].  The decoder raises by calling what the
    name [JSONDecodeError] of [simplejson.decoder] is bound to: the
    exception class, or, once [get_data] has caught a [KeyError], that
    [KeyError] object, which cannot be called. *)
Definition simplejson_loads (w : World) (result : string)
    : M (list (string * string)) :=
  match json_loads w result with
  | Some data => mret data
  | None =>
      self ← get_self;
      if decode_error_rebound self then mthrow TypeError
      else mthrow JSONDecodeError
  end.

(** In [get_data] the clause reads
    [except KeyError, simplejson.decoder.JSONDecodeError:], which in
    Python 2 catches [KeyError] alone and assigns the caught exception to
    [simplejson.decoder.JSONDecodeError] before the handler runs. *)
Definition get_data (w : World) (endpoint : string) : M (list (string * string)) :=
  try_except_KeyError
    (a ← api_self;
     parse_token w (access_token_str a);;
     _ ← api_consumer;
     result ← http_request w "GET"
       ("http://" +:+ JustinApi_addr +:+ "/api/" +:+ endpoint) [];
     simplejson_loads w result)
    (modify rebind_decode_error;;
     emit (LogError ("justin.tv API: failed fetch data from endpoint " +:+ endpoint));;
     mret []).

Definition set_data (w : World) (endpoint : string) (payload : list (string * string))
    : M (option string) :=
  try_except_KeyError
    (a ← api_self;
     parse_token w (access_token_str a);;
     _ ← api_consumer;
     result ← http_request w "POST"
       ("http://" +:+ JustinApi_addr +:+ "/api/" +:+ endpoint) payload;
     mret (Some result))
    (emit (LogError ("justin.tv API: failed write data to endpoint " +:+ endpoint));;
     mret None).

(** [data[key]] on a decoded JSON object *)
Definition json_getitem (data : list (string * string)) (key : string) : outcome string :=
  match assoc key data with
  | Some v => Ret v
  | None => Raise (KeyError key)
  end.

(** The first event records that the method was entered, with its
    arguments. *)
Definition set_channel_status (w : World) (status description : string) : M unit :=
  emit (SetChannelStatus status description);;
  a ← api_self;
  (if bool_decide (access_token_str a = "") then obtain_access_token w
   else mret ());;
  data ← get_data w "account/whoami.json";
  if bool_decide (data = []) then mret ()
  else
    login ← lift (json_getitem data "login");
    _ ← get_data w ("channel/show/" +:+ login +:+ ".json");
    _ ← set_data w "channel/update.json"
          [("title", status); ("status", status); ("description", description)];
    mret ().

(** ** RTMPOutput.get_output_bin (lines 163-253) *)

(** [gst.element_factory_make(factory, name)] *)
Definition Element_new (factory name : string) : Element :=
  {| el_name := name; el_factory := factory; el_props := [];
     el_tags := None; el_merge_mode := None |}.

Definition element_factory_make (w : World) (factory name : string) : M Element :=
  if installed w factory then mret (Element_new factory name)
  else mthrow (ElementNotFoundError factory).

(** [gst.GhostPad(name, element.get_pad(pad))] *)
Definition GhostPad_new (name : string) (e : Element) (pad : string) : GhostPad :=
  {| gp_name := name; gp_element := el_name e; gp_pad := pad |}.

(** Lines 169-186: the muxer with its tags, and the RTMP sink. *)
Definition muxer_and_sink (w : World) (metadata : option (gmap string string))
    (bin : Bin) : M (Bin * Element * Element) :=
  muxer ← element_factory_make w "flvmux" "muxer";
  merge_mode ← lift (match TagMergeMode_enum_values !! 2%nat with
                     | Some m => Ret m
                     | None => Raise (KeyError "2")
                     end);
  muxer ← match metadata with
          | Some _ =>
              self ← get_self;
              match tags self with
              | Some t => mret (merge_tags muxer t merge_mode)
              | None => mthrow TypeError
              end
          | None => mret muxer
          end;
  let muxer := set_tag_merge_mode muxer merge_mode in
  let bin := bin_add bin muxer in
  rtmpsink ← element_factory_make w "rtmpsink" "rtmpsink";
  cfg ← get_config;
  let rtmpsink := set_property rtmpsink "location" (VStr (url cfg)) in
  let bin := bin_add bin rtmpsink in
  mret (bin, muxer, rtmpsink).

(** Lines 191-220: the audio chain. *)
Definition audio_pipeline (w : World) (muxer : Element) (bin : Bin) : M Bin :=
  audioqueue ← element_factory_make w "queue" "audioqueue";
  let bin := bin_add bin audioqueue in
  audioconvert ← element_factory_make w "audioconvert" "audioconvert";
  let bin := bin_add bin audioconvert in
  audiolevel ← element_factory_make w "level" "audiolevel";
  let audiolevel := set_property audiolevel "interval" (VInt 20000000) in
  let bin := bin_add bin audiolevel in
  cfg ← get_config;
  audiocodec ← element_factory_make w (audio_codec cfg) "audiocodec";
  let names := property_names w (el_factory audiocodec) in
  audiocodec ←
    (if py_in "quality" names then
       cfg ← get_config;
       mret (set_property audiocodec "quality" (VInt (audio_quality cfg)))
     else
       emit (LogDebug ("WARNING: Missing property: 'quality' on audiocodec; available: "
                       +:+ join "," names));;
       mret audiocodec);
  let bin := bin_add bin audiocodec in
  let audio_ghostpad := GhostPad_new "audiosink" audioqueue "sink" in
  let bin := bin_add_pad bin audio_ghostpad in
  let bin := link bin audioqueue audioconvert in
  let bin := link bin audioconvert audiolevel in
  let bin := link bin audiolevel audiocodec in
  let bin := link bin audiocodec muxer in
  mret bin.

(** Lines 225-242: the video chain. *)
Definition video_pipeline (w : World) (muxer : Element) (bin : Bin) : M Bin :=
  videoqueue ← element_factory_make w "queue" "videoqueue";
  let bin := bin_add bin videoqueue in
  videocodec ← element_factory_make w "x264enc" "videocodec";
  cfg ← get_config;
  let videocodec := set_property videocodec "bitrate" (VInt (video_bitrate cfg)) in
  cfg ← get_config;
  let videocodec :=
    if bool_decide (video_tune cfg ≠ "none")
    then set_property videocodec "tune" (VStr (video_tune cfg))
    else videocodec in
  let bin := bin_add bin videocodec in
  let video_ghostpad := GhostPad_new "videosink" videoqueue "sink" in
  let bin := bin_add_pad bin video_ghostpad in
  let bin := link bin videoqueue videocodec in
  let bin := link bin videocodec muxer in
  mret bin.

(** The condition of line 249. *)
Definition push_requested (cfg : RTMPOutputConfig) : outcome bool :=
  justin ← subscript STREAMING_DESTINATION_VALUES 1;
  mret (bool_decide (streaming_destination cfg = justin)
        && bool_decide (use_justin_api cfg = "yes")).

(** Lines 250-251: the method is looked up on [self.justin_api], then the
    two arguments are computed, then the call is made. *)
Definition push_channel_status (w : World) (metadata : option (gmap string string))
    : M unit :=
  self ← get_self;
  match justin_api self with
  | None => mthrow (AttributeError "NoneType" "set_channel_status")
  | Some _ =>
      status ← lift (get_talk_status self metadata);
      description ← lift (get_description self metadata);
      set_channel_status w status description
  end.

Definition get_output_bin (w : World) (audio video : bool)
    (metadata : option (gmap string string)) : M Bin :=
  let bin := empty_bin in
  match metadata with
  | Some data => set_metadata w data
  | None => mret ()
  end;;
  '(bin, muxer, rtmpsink) ← muxer_and_sink w metadata bin;
  bin ← (if audio then audio_pipeline w muxer bin else mret bin);
  bin ← (if video then video_pipeline w muxer bin else mret bin);
  let bin := link bin muxer rtmpsink in
  cfg ← get_config;
  push ← lift (push_requested cfg);
  (if (push : bool) then push_channel_status w metadata else mret ());;
  (mret bin : M Bin).

(** ** RTMPOutput.load_config (lines 279-283) *)

(** Modelled from the spec: [IOutput.load_config] of
    [freeseer.framework.plugin], which is not under src/.  The spec
    (section 3) has the configuration "persisted as a flat, versionless
    key-value record" and read back from there. *)
Definition IOutput_load_config : M unit :=
  modify (λ p, set_config (saved p) p).

Definition load_config (w : World) : M unit :=
  IOutput_load_config;;
  cfg ← get_config;
  if bool_decide (justin_api_persistent cfg ≠ "") then
    api ← lift (JustinApi_from_string w (justin_api_persistent cfg));
    modify (set_justin_api (Some api));;
    set_save_method w
  else mret ().

(** ** The setters of the settings panel (lines 520-555) *)

Definition with_url (c : RTMPOutputConfig) (v : string) : RTMPOutputConfig :=
  {| url := v; audio_quality := audio_quality c; video_bitrate := video_bitrate c;
     video_tune := video_tune c; audio_codec := audio_codec c;
     streaming_destination := streaming_destination c;
     streaming_key := streaming_key c; consumer_key := consumer_key c;
     consumer_secret := consumer_secret c;
     authorization_url := authorization_url c;
     use_justin_api := use_justin_api c;
     justin_api_persistent := justin_api_persistent c |}.

Definition with_streaming_key (c : RTMPOutputConfig) (v : string) : RTMPOutputConfig :=
  {| url := url c; audio_quality := audio_quality c; video_bitrate := video_bitrate c;
     video_tune := video_tune c; audio_codec := audio_codec c;
     streaming_destination := streaming_destination c;
     streaming_key := v; consumer_key := consumer_key c;
     consumer_secret := consumer_secret c;
     authorization_url := authorization_url c;
     use_justin_api := use_justin_api c;
     justin_api_persistent := justin_api_persistent c |}.

Definition set_stream_url (text : string) : M unit :=
  modify (λ p, set_config (with_url (config p) text) p);;
  config_save.

Definition set_video_tune (tune : string) : M unit :=
  modify (λ p, set_config (with_video_tune (config p) tune) p);;
  config_save.

Definition set_audio_codec (codec : string) : M unit :=
  modify (λ p, set_config (with_audio_codec (config p) codec) p);;
  config_save.

Definition set_streaming_key (text : string) : M unit :=
  modify (λ p, set_config (with_streaming_key (config p) text) p);;
  config_save.

(** ** RTMPOutput.apply_justin_settings (lines 585-611) *)

(** The Qt side of [apply_justin_settings], which is not embedded: the
    reload of the widgets, the browser and the two message boxes.  Each
    may do to the plugin whatever it does, and may raise. *)
Record Gui := {
  stream_settings_load_config : M unit;
  webbrowser_open : string → M unit;
  message_information : string → M unit;
  message_critical : M unit
}.

(** [base + text], for a [base] read from an attribute *)
Definition concat_value (base : value) (text : string) : outcome string :=
  match base with
  | VStr s => Ret (s +:+ text)
  | _ => Raise TypeError
  end.

Definition apply_justin_settings (w : World) (g : Gui) : M unit :=
  self ← get_self;
  base ← lift (getattr self "JUSTIN_URL");
  cfg ← get_config;
  target ← lift (concat_value base (streaming_key cfg));
  set_stream_url target;;
  set_audio_codec "lame";;
  stream_settings_load_config g;;
  try_except_KeyError
    (cfg ← get_config;
     if bool_decide (consumer_key cfg ≠ "") && bool_decide (consumer_secret cfg ≠ "")
     then
       r ← JustinApi_open_request w (consumer_key cfg) (consumer_secret cfg);
       modify (set_justin_api (Some r.2));;
       set_save_method w;;
       webbrowser_open g r.1;;
       message_information g r.1
     else mret ())
    (emit (LogError "justin.tv API error: Authentication failed. Supplied credentials may be incorrect.");;
     message_critical g).

(** ** The calls on a plugin object

    What the host and the settings panel do to a plugin: one call of a
    method embedded above, with its arguments.  The methods that build
    and fill the Qt widgets (lines 285-518) and the four callbacks that
    read a widget (lines 524-563) are not embedded; they assign widget
    attributes and fields of the configuration record. *)
Inductive call :=
| call_load_config
| call_set_metadata (data : gmap string string)
| call_get_output_bin (audio video : bool) (metadata : option (gmap string string))
| call_set_stream_url (text : string)
| call_set_video_tune (tune : string)
| call_set_audio_codec (codec : string)
| call_set_streaming_key (text : string)
| call_set_consumer_key (text : string)
| call_set_consumer_secret (text : string)
| call_set_justin_api_persistent (text : string)
| call_apply_justin_settings (g : Gui).

(** The plugin after a call, whether the call returned or raised. *)
Definition perform (w : World) (c : call) (p : Plugin) : Plugin :=
  match c with
  | call_load_config => (load_config w p).2
  | call_set_metadata data => (set_metadata w data p).2
  | call_get_output_bin audio video metadata =>
      (get_output_bin w audio video metadata p).2
  | call_set_stream_url text => (set_stream_url text p).2
  | call_set_video_tune tune => (set_video_tune tune p).2
  | call_set_audio_codec codec => (set_audio_codec codec p).2
  | call_set_streaming_key text => (set_streaming_key text p).2
  | call_set_consumer_key text => (set_consumer_key text p).2
  | call_set_consumer_secret text => (set_consumer_secret text p).2
  | call_set_justin_api_persistent text => (set_justin_api_persistent text p).2
  | call_apply_justin_settings g => (apply_justin_settings w g p).2
  end.

(** The plugins the module produces: a new object, whatever the record it
    holds and the record that is stored, and the object any sequence of
    calls leaves.  [self.justin_api] is [None] in the class (line 151) and
    is assigned at lines 282 and 594 only, in [load_config] and in
    [apply_justin_settings]. *)
Inductive reachable (w : World) : Plugin → Prop :=
| reachable_new (cfg stored : RTMPOutputConfig) :
    reachable w (set_saved stored (new_plugin cfg))
| reachable_perform (c : call) (p : Plugin) :
    reachable w p → reachable w (perform w c p).

(** ** What the builder builds

    The values the parts of [get_output_bin] compute, written out, for the
    statements below. *)

Section Derived.
Variable w : World.

(** One turn of the loop of [set_metadata], on the tag list. *)
Definition keep (data acc : gmap string string) (tag : string) : gmap string string :=
  if tag_exists w tag then
    match data !! tag with
    | Some v => <[tag := v]> acc
    | None => acc
    end
  else acc.

Definition muxer_element (metadata : option (gmap string string))
    (t : option (gmap string string)) : Element :=
  let muxer := Element_new "flvmux" "muxer" in
  set_tag_merge_mode
    match metadata, t with
    | Some _, Some t => merge_tags muxer t GST_TAG_MERGE_REPLACE
    | _, _ => muxer
    end GST_TAG_MERGE_REPLACE.

Definition sink_element (cfg : RTMPOutputConfig) : Element :=
  set_property (Element_new "rtmpsink" "rtmpsink") "location" (VStr (url cfg)).

Definition has_quality (cfg : RTMPOutputConfig) : bool :=
  py_in "quality" (property_names w (audio_codec cfg)).

Definition audio_codec_element (cfg : RTMPOutputConfig) : Element :=
  let codec := Element_new (audio_codec cfg) "audiocodec" in
  if has_quality cfg
  then set_property codec "quality" (VInt (audio_quality cfg))
  else codec.

Definition audio_elements (cfg : RTMPOutputConfig) : list Element :=
  [Element_new "queue" "audioqueue";
   Element_new "audioconvert" "audioconvert";
   set_property (Element_new "level" "audiolevel") "interval" (VInt 20000000);
   audio_codec_element cfg].

Definition audio_links : list (string * string) :=
  [("audioqueue", "audioconvert"); ("audioconvert", "audiolevel");
   ("audiolevel", "audiocodec"); ("audiocodec", "muxer")].

Definition audio_pad : GhostPad :=
  {| gp_name := "audiosink"; gp_element := "audioqueue"; gp_pad := "sink" |}.

Definition video_codec_element (cfg : RTMPOutputConfig) : Element :=
  let codec :=
    set_property (Element_new "x264enc" "videocodec") "bitrate"
      (VInt (video_bitrate cfg)) in
  if bool_decide (video_tune cfg ≠ "none")
  then set_property codec "tune" (VStr (video_tune cfg))
  else codec.

Definition video_elements (cfg : RTMPOutputConfig) : list Element :=
  [Element_new "queue" "videoqueue"; video_codec_element cfg].

Definition video_links : list (string * string) :=
  [("videoqueue", "videocodec"); ("videocodec", "muxer")].

Definition video_pad : GhostPad :=
  {| gp_name := "videosink"; gp_element := "videoqueue"; gp_pad := "sink" |}.

(** The message of line 207. *)
Definition missing_quality (cfg : RTMPOutputConfig) : event :=
  LogDebug ("WARNING: Missing property: 'quality' on audiocodec; available: "
            +:+ join "," (property_names w (audio_codec cfg))).

(** The plugin after the audio chain was built. *)
Definition after_audio (p : Plugin) : Plugin :=
  if has_quality (config p) then p else add_event (missing_quality (config p)) p.

(** The plugin after [set_metadata], when there is metadata. *)
Definition after_metadata (metadata : option (gmap string string)) (p : Plugin)
    : Plugin :=
  match metadata with
  | Some data => set_tags (Some (foldl (keep data) ∅ (dict_keys data))) p
  | None => p
  end.

Definition audio_chain (cfg : RTMPOutputConfig) (muxer : Element) (bin : Bin) : Bin :=
  {| elements := elements bin ++ audio_elements cfg;
     ghost_pads := ghost_pads bin ++ [audio_pad];
     links := links bin
              ++ [("audioqueue", "audioconvert"); ("audioconvert", "audiolevel");
                  ("audiolevel", "audiocodec"); ("audiocodec", el_name muxer)] |}.

Definition video_chain (cfg : RTMPOutputConfig) (muxer : Element) (bin : Bin) : Bin :=
  {| elements := elements bin ++ video_elements cfg;
     ghost_pads := ghost_pads bin ++ [video_pad];
     links := links bin
              ++ [("videoqueue", "videocodec"); ("videocodec", el_name muxer)] |}.

(** The graph [get_output_bin] returns. *)
Definition wired_bin (cfg : RTMPOutputConfig) (t : option (gmap string string))
    (audio video : bool) (metadata : option (gmap string string)) : Bin :=
  {| elements :=
       [muxer_element metadata t; sink_element cfg]
       ++ (if audio then audio_elements cfg else [])
       ++ (if video then video_elements cfg else []);
     ghost_pads :=
       (if audio then [audio_pad] else []) ++ (if video then [video_pad] else []);
     links :=
       (if audio then audio_links else [])
       ++ (if video then video_links else [])
       ++ [("muxer", "rtmpsink")] |}.

(** The element types the graph needs from the registry. *)
Definition audio_installed (cfg : RTMPOutputConfig) : bool :=
  installed w "queue" && installed w "audioconvert" && installed w "level"
  && installed w (audio_codec cfg).

Definition video_installed : bool :=
  installed w "queue" && installed w "x264enc".

Definition all_installed (cfg : RTMPOutputConfig) (audio video : bool) : bool :=
  installed w "flvmux" && installed w "rtmpsink"
  && (if audio then audio_installed cfg else true)
  && (if video then video_installed else true).

Definition push_on (cfg : RTMPOutputConfig) : bool :=
  bool_decide (streaming_destination cfg = "justin.tv")
  && bool_decide (use_justin_api cfg = "yes").

Definition after_graph (audio : bool) (metadata : option (gmap string string))
    (p : Plugin) : Plugin :=
  if audio then after_audio (after_metadata metadata p)
  else after_metadata metadata p.

End Derived.

(** A computation extends the trace when whatever it does, returning or
    raising, the events recorded before it ran are still there, in
    order, followed by its own. *)
Definition extends {A} (m : M A) : Prop :=
  ∀ p, ∃ evs, trace (m p).2 = trace p ++ evs.

(** A computation preserves a part of the plugin when, returning or
    raising, it leaves that part as it found it. *)
Definition preserves {A X} (part : Plugin → X) (m : M A) : Prop :=
  ∀ p, part (m p).2 = part p.

(** A computation is quiet when, run on a plugin with no client in
    [self.justin_api], it installs none, leaves the attributes of the
    instance alone and adds nothing but debug messages to the trace,
    whether it returns or raises. *)
Definition quiet {A} (m : M A) : Prop :=
  ∀ p, justin_api p = None →
    justin_api (m p).2 = None
    ∧ attrs (m p).2 = attrs p
    ∧ ∃ evs, trace (m p).2 = trace p ++ evs
             ∧ ∀ e, e ∈ evs → ∃ msg, e = LogDebug msg.

(** The names of the elements of a bin, in the order they were added. *)
Definition element_names (b : Bin) : list string := el_name <$> elements b.

(** The links of a bin that leave the element of a given name. *)
Definition links_from (b : Bin) (name : string) : list (string * string) :=
  filter (λ l, l.1 = name) (links b).

(** The address of an endpoint of the platform, as [get_data] and
    [set_data] build it, and the address of the token exchange. *)
Definition api_url (endpoint : string) : string :=
  "http://" +:+ JustinApi_addr +:+ "/api/" +:+ endpoint.

Definition access_token_url : string :=
  "http://" +:+ JustinApi_addr +:+ "/oauth/access_token".

(** ** Example inputs *)

(** A host with both audio codecs and the x264 encoder installed, where
    the first codec ([lame]) has a [quality] property and the second
    ([faac]) has none, the three tags of the talk metadata are registered,
    and the only string that unpickles is the blob ["BLOB"].  The server is
    given by its answers. *)
Definition host_world (server : string → string → outcome string) : World := {|
  installed := λ factory,
    bool_decide (factory ∈ ["flvmux"; "rtmpsink"; "queue"; "audioconvert";
                            "level"; "lame"; "faac"; "x264enc"]);
  property_names := λ factory,
    if bool_decide (factory = "lame") then ["name"; "bitrate"; "quality"]
    else ["name"; "bitrate"];
  tag_exists := λ tag, bool_decide (tag ∈ ["title"; "artist"; "comment"]);
  token_ok := λ s,
    bool_decide (s ∈ ["oauth_token=r&oauth_token_secret=t";
                      "oauth_token=k&oauth_token_secret=s"]);
  http := server;
  json_loads := λ s, if bool_decide (s = "{}") then Some [] else None;
  pickle_loads := λ s,
    if bool_decide (s = "BLOB")
    then Some ["key"; "secret"; "oauth_token=r&oauth_token_secret=t"; ""]
    else None;
  pickle_dumps := λ fields, join "|" fields;
  authorize_url := λ token,
    "http://api.justin.tv/oauth/authorize?" +:+ token
|}.

(** A server that hands out the request token and the access token and
    answers every other request with a page that is no JSON. *)
Definition demo_world : World :=
  host_world (λ method url,
    if bool_decide (url = "http://api.justin.tv/oauth/request_token")
    then Ret "oauth_token=r&oauth_token_secret=t"
    else if bool_decide (url = "http://api.justin.tv/oauth/access_token")
    then Ret "oauth_token=k&oauth_token_secret=s"
    else Ret "<html>Service Unavailable</html>").

(** A server that rejects the consumer credentials: no answer holds a
    token. *)
Definition rejecting_world : World :=
  host_world (λ method url, Ret "Invalid OAuth Request").

(** [{title: "T", artist: "A", comment: "C"}] *)
Definition talk_metadata : gmap string string :=
  <["title" := "T"]> (<["artist" := "A"]> (<["comment" := "C"]> ∅)).

(** [{title: "T"}] *)
Definition title_only : gmap string string := <["title" := "T"]> ∅.

(** The plugin object with the module constants also reachable as
    attributes of the instance. *)
Definition with_module_constants (p : Plugin) : Plugin :=
  set_attr "STATUS_KEYS" (VList STATUS_KEYS)
    (set_attr "DESCRIPTION_KEY" (VStr DESCRIPTION_KEY) p).

(** The configuration that streams to Justin.tv and pushes the channel
    properties. *)
Definition justin_config : RTMPOutputConfig :=
  with_destination default_config "justin.tv" "yes".

(** A client as [from_string] would hand it out if [__init__] stored its
    arguments: key, secret, an access token and the save callback. *)
Definition demo_api : JustinApi :=
  {| api_config := Some ("key", "secret");
     request_token_str := "oauth_token=r&oauth_token_secret=t";
     access_token_str := "oauth_token=k&oauth_token_secret=s";
     save_method := true |}.

Definition justin_plugin : Plugin :=
  set_justin_api (Some demo_api) (new_plugin justin_config).

(** A plugin whose client holds an access token that does not parse. *)
Definition malformed_token_plugin : Plugin :=
  set_justin_api
    (Some {| api_config := Some ("key", "secret");
             request_token_str := "oauth_token=r&oauth_token_secret=t";
             access_token_str := "not-a-token";
             save_method := true |})
    (new_plugin justin_config).

Definition faac_film_config : RTMPOutputConfig :=
  with_video_tune (with_audio_codec default_config "faac") "film".

(** A host like [host_world] whose JSON decoder is given too. *)
Definition platform_world (server : string → string → outcome string)
    (decoder : string → option (list (string * string))) : World := {|
  installed := installed (host_world server);
  property_names := property_names (host_world server);
  tag_exists := tag_exists (host_world server);
  token_ok := token_ok (host_world server);
  http := server;
  json_loads := decoder;
  pickle_loads := pickle_loads (host_world server);
  pickle_dumps := pickle_dumps (host_world server);
  authorize_url := authorize_url (host_world server)
|}.

(** A platform that knows the user: it answers [account/whoami.json] with
    the login [bob], shows the channel of [bob] and accepts updates. *)
Definition working_world : World :=
  platform_world
    (λ method url,
       if bool_decide (url = api_url "account/whoami.json") then Ret "WHOAMI"
       else if bool_decide (url = api_url "channel/show/bob.json") then Ret "CHANNEL"
       else if bool_decide (url = api_url "channel/update.json") then Ret "OK"
       else Raise IOError)
    (λ body,
       if bool_decide (body = "WHOAMI") then Some [("login", "bob")]
       else if bool_decide (body = "CHANNEL")
       then Some [("login", "bob"); ("title", "old")]
       else None).

(** A platform that answers every request with an error object. *)
Definition refusing_world : World :=
  platform_world (λ method url, Ret "ERROR")
    (λ body, Some [("error", "Invalid token")]).

(** A platform that answers every request with the empty object. *)
Definition empty_world : World := host_world (λ method url, Ret "{}").

(** A plugin whose client has a request token and no access token yet. *)
Definition unexchanged_plugin : Plugin :=
  set_justin_api
    (Some {| api_config := Some ("key", "secret");
             request_token_str := "oauth_token=r&oauth_token_secret=t";
             access_token_str := "";
             save_method := true |})
    (new_plugin justin_config).

(** A host without the x264 encoder. *)
Definition no_x264_world : World := {|
  installed := λ factory,
    bool_decide (factory ∈ ["flvmux"; "rtmpsink"; "queue"; "audioconvert";
                            "level"; "lame"; "faac"]);
  property_names := property_names demo_world;
  tag_exists := tag_exists demo_world;
  token_ok := token_ok demo_world;
  http := http demo_world;
  json_loads := json_loads demo_world;
  pickle_loads := pickle_loads demo_world;
  pickle_dumps := pickle_dumps demo_world;
  authorize_url := authorize_url demo_world
|}.

(** The bin built on the example host from the default configuration. *)
Definition demo_bin (audio video : bool) (metadata : option (gmap string string))
    : Bin :=
  wired_bin demo_world default_config
    (tags (after_metadata demo_world metadata (new_plugin default_config)))
    audio video metadata.

(** The configuration of an operator who entered the consumer key and
    secret and ticked the box, with a blob stored from an earlier
    session. *)
Definition stored_credentials_config : RTMPOutputConfig :=
  with_justin_api_persistent
    (with_consumer_secret (with_consumer_key justin_config "key") "secret")
    "BLOB".

(** A Qt side that does nothing. *)
Definition silent_gui : Gui :=
  {| stream_settings_load_config := mret ();
     webbrowser_open := λ _, mret ();
     message_information := λ _, mret ();
     message_critical := mret () |}.

(** The plugin of that operator after the host loaded the configuration
    and the operator pressed the button of the panel. *)
Definition panel_plugin : Plugin :=
  perform demo_world (call_apply_justin_settings silent_gui)
    (perform demo_world call_load_config
       (set_saved stored_credentials_config (new_plugin default_config))).

(** * Properties *)

(** ** Metadata *)

Section Metadata.
Variable w : World.

Lemma elem_of_dict_keys (data : gmap string string) (k : string) :
  k ∈ dict_keys data ↔ is_Some (data !! k).
Proof.
  unfold dict_keys. rewrite list_elem_of_fmap. split.
  - intros [[k' v] [-> Hin]]. apply elem_of_map_to_list in Hin. eauto.
  - intros [v Hv]. exists (k, v). split; [done|].
    by apply elem_of_map_to_list.
Qed.

Lemma for_each_tags (data : gmap string string) (l : list string) :
  (∀ k, k ∈ l → is_Some (data !! k)) →
  ∀ (t : gmap string string) (p : Plugin),
    for_each l (λ tag,
      if tag_exists w tag then
        v ← lift (getitem data tag);
        tags_setitem tag v
      else mret ()) (set_tags (Some t) p)
    = (Ret (), set_tags (Some (foldl (keep w data) t l)) p).
Proof.
  induction l as [|a l IH]; intros Hl t p; simpl.
  - reflexivity.
  - destruct (Hl a) as [v Hv]; [left|].
    unfold mbind, M_bind, keep at 2.
    destruct (tag_exists w a) eqn:Ha.
    + unfold lift, getitem. rewrite Hv. simpl.
      exact (IH (λ k Hk, Hl k (list_elem_of_further _ _ _ Hk)) (<[a := v]> t) p).
    + unfold mret, M_ret.
      exact (IH (λ k Hk, Hl k (list_elem_of_further _ _ _ Hk)) t p).
Qed.

Lemma foldl_keep_lookup (data : gmap string string) (l : list string) :
  (∀ k, k ∈ l → is_Some (data !! k)) →
  ∀ (t : gmap string string) (k : string),
    foldl (keep w data) t l !! k
    = if decide (k ∈ l ∧ tag_exists w k = true) then data !! k else t !! k.
Proof.
  induction l as [|a l IH]; intros Hl t k; cbn [foldl].
  - destruct (decide _) as [[H _]|]; [|done]. by apply elem_of_nil in H.
  - rewrite IH by (intros k' Hk'; apply Hl; by right).
    destruct (Hl a) as [v Hv]; [left|].
    destruct (decide (k ∈ l ∧ tag_exists w k = true)) as [[Hin Hk]|Hn];
      destruct (decide (k ∈ a :: l ∧ tag_exists w k = true)) as [[Hin' Hk']|Hn'].
    + reflexivity.
    + exfalso. apply Hn'. split; [by right|done].
    + apply elem_of_cons in Hin' as [->|Hin'].
      * unfold keep. rewrite Hk', Hv. by rewrite lookup_insert_eq.
      * exfalso. by apply Hn.
    + unfold keep. destruct (tag_exists w a) eqn:Ha; [|done].
      rewrite Hv. destruct (decide (a = k)) as [->|Hne].
      * exfalso. apply Hn'. split; [left|done].
      * by rewrite lookup_insert_ne.
Qed.

(** [set_metadata] always returns, and leaves in [self.tags] the
    restriction of the mapping to the registered tags. *)
Lemma set_metadata_run (data : gmap string string) (p : Plugin) :
  set_metadata w data p
  = (Ret (), set_tags (Some (foldl (keep w data) ∅ (dict_keys data))) p).
Proof.
  unfold set_metadata, mbind at 1, M_bind at 1, modify.
  exact (for_each_tags data (dict_keys data)
           (λ k, proj1 (elem_of_dict_keys data k)) ∅ p).
Qed.

Lemma kept_tags_lookup (data : gmap string string) (k : string) :
  foldl (keep w data) ∅ (dict_keys data) !! k
  = if tag_exists w k then data !! k else None.
Proof.
  rewrite foldl_keep_lookup by (intros k'; apply elem_of_dict_keys).
  rewrite lookup_empty. case_decide as H.
  - destruct H as [_ ->]. done.
  - destruct (tag_exists w k); [|done].
    destruct (data !! k) eqn:Hk; [|done].
    exfalso. apply H. split; [|done]. apply elem_of_dict_keys. eauto.
Qed.

(** C10: for every metadata mapping, [set_metadata] returns without an
    exception and the tag list it leaves in [self.tags] holds exactly the
    keys of the mapping that the tag vocabulary ([gst.tag_exists])
    recognizes, each with the value the mapping gave it; every other key
    is absent.  Nothing else of the plugin changes. *)
Theorem set_metadata_keeps_recognized_tags (data : gmap string string) (p : Plugin) :
  ∃ (t : gmap string string),
    set_metadata w data p = (Ret (), set_tags (Some t) p)
    ∧ ∀ k, t !! k = if tag_exists w k then data !! k else None.
Proof.
  exists (foldl (keep w data) ∅ (dict_keys data)). split.
  - apply set_metadata_run.
  - apply kept_tags_lookup.
Qed.

End Metadata.

(** ** Talk status and description *)

Section TalkStatus.

(** With no metadata, or an empty mapping, both helpers return the empty
    string. *)
Lemma talk_status_without_metadata (p : Plugin) :
  get_talk_status p None = Ret "" ∧ get_description p None = Ret ""
  ∧ get_talk_status p (Some ∅) = Ret "" ∧ get_description p (Some ∅) = Ret "".
Proof. repeat split; reflexivity. Qed.

(** Where [STATUS_KEYS] resolves to the module constant, the status is
    the artist, [" - "], then the title. *)
Lemma talk_status_joins_artist_and_title (p : Plugin) (m : gmap string string)
    (artist title : string) :
  getattr p "STATUS_KEYS" = Ret (VList STATUS_KEYS) →
  m !! "artist" = Some artist →
  m !! "title" = Some title →
  get_talk_status p (Some m) = Ret (artist +:+ " - " +:+ title).
Proof.
  intros Hattr Ha Ht. unfold get_talk_status, py_not.
  rewrite bool_decide_false by (intros ->; by rewrite lookup_empty in Ha).
  rewrite Hattr. simpl. unfold getitem. rewrite Ha, Ht. reflexivity.
Qed.

Lemma description_is_comment (p : Plugin) (m : gmap string string) (comment : string) :
  getattr p "DESCRIPTION_KEY" = Ret (VStr DESCRIPTION_KEY) →
  m !! "comment" = Some comment →
  get_description p (Some m) = Ret comment.
Proof.
  intros Hattr Hc. unfold get_description, py_not.
  rewrite bool_decide_false by (intros ->; by rewrite lookup_empty in Hc).
  rewrite Hattr. simpl. unfold getitem. unfold DESCRIPTION_KEY. by rewrite Hc.
Qed.

(** On a plugin whose instance carries the two module constants the
    helpers give ["A - T"] and ["C"] for the talk metadata. *)
Example talk_status_with_module_constants :
  get_talk_status (with_module_constants (new_plugin default_config))
    (Some talk_metadata) = Ret "A - T"
  ∧ get_description (with_module_constants (new_plugin default_config))
      (Some talk_metadata) = Ret "C".
Proof. split; vm_compute; reflexivity. Qed.

(** C2: on the plugin as the module builds it, for the metadata
    [{title: "T", artist: "A", comment: "C"}], [get_talk_status] does not
    return ["A - T"]: it raises [AttributeError], because [STATUS_KEYS] is
    a constant of the module and no attribute of the object, its class or
    its base class; [get_description] raises on [DESCRIPTION_KEY] in the
    same way instead of returning ["C"]. *)
Theorem talk_status_of_talk_metadata_raises (c : RTMPOutputConfig) :
  get_talk_status (new_plugin c) (Some talk_metadata)
  = Raise (AttributeError "RTMPOutput" "STATUS_KEYS")
  ∧ get_description (new_plugin c) (Some talk_metadata)
    = Raise (AttributeError "RTMPOutput" "DESCRIPTION_KEY").
Proof. split; vm_compute; reflexivity. Qed.

(** C4, as the claim states it, fails: for the non-empty mapping
    [{title: "T"}], which lacks the artist and the comment, neither helper
    returns the empty string.  On the plugin as built both raise
    [AttributeError]; with the module constants resolved both raise
    [KeyError] for the missing field. *)
Lemma missing_field_is_not_empty_string :
  get_talk_status (new_plugin default_config) (Some title_only)
  = Raise (AttributeError "RTMPOutput" "STATUS_KEYS")
  ∧ get_description (new_plugin default_config) (Some title_only)
    = Raise (AttributeError "RTMPOutput" "DESCRIPTION_KEY")
  ∧ get_talk_status (with_module_constants (new_plugin default_config))
      (Some title_only) = Raise (KeyError "artist")
  ∧ get_description (with_module_constants (new_plugin default_config))
      (Some title_only) = Raise (KeyError "comment").
Proof. repeat split; vm_compute; reflexivity. Qed.

(** C4 (amended): for [metadata = None], and for the empty mapping,
    [get_talk_status] and [get_description] both return the empty
    string.  For a non-empty mapping no empty string stands in for a
    missing field: [get_talk_status] raises when the artist or the title
    is missing and [get_description] raises when the comment is missing.
    This holds whether the two key attributes are absent from the object
    or resolve to the constants of the module. *)
Theorem missing_field_raises (p : Plugin) (m : gmap string string) :
  (∀ v, getattr p "STATUS_KEYS" = Ret v → v = VList STATUS_KEYS) →
  (∀ v, getattr p "DESCRIPTION_KEY" = Ret v → v = VStr DESCRIPTION_KEY) →
  m ≠ ∅ →
  get_talk_status p None = Ret "" ∧ get_description p None = Ret ""
  ∧ get_talk_status p (Some ∅) = Ret "" ∧ get_description p (Some ∅) = Ret ""
  ∧ (m !! "artist" = None ∨ m !! "title" = None →
     is_raise (get_talk_status p (Some m)) = true)
  ∧ (m !! "comment" = None →
     is_raise (get_description p (Some m)) = true).
Proof.
  intros Hs Hd Hm.
  destruct (talk_status_without_metadata p) as (H1 & H2 & H3 & H4).
  repeat split; try assumption.
  - intros Hmiss. unfold get_talk_status, py_not.
    rewrite bool_decide_false by done.
    destruct (getattr p "STATUS_KEYS") as [v|e] eqn:Hattr; [|reflexivity].
    rewrite (Hs v eq_refl). simpl. unfold getitem.
    destruct (m !! "artist") as [a|]; [|reflexivity].
    destruct Hmiss as [Hmiss|Hmiss]; [discriminate|].
    rewrite Hmiss. reflexivity.
  - intros Hmiss. unfold get_description, py_not.
    rewrite bool_decide_false by done.
    destruct (getattr p "DESCRIPTION_KEY") as [v|e] eqn:Hattr; [|reflexivity].
    rewrite (Hd v eq_refl). simpl. unfold getitem, DESCRIPTION_KEY.
    rewrite Hmiss. reflexivity.
Qed.

Lemma missing_field_raises_witness :
  (get_talk_status (new_plugin default_config) None = Ret ""
   ∧ get_description (new_plugin default_config) None = Ret ""
   ∧ is_raise (get_talk_status (new_plugin default_config) (Some title_only)) = true
   ∧ is_raise (get_description (new_plugin default_config) (Some title_only)) = true)
  ∧ is_raise (get_talk_status (with_module_constants (new_plugin default_config))
                (Some title_only)) = true
  ∧ is_raise (get_description (with_module_constants (new_plugin default_config))
                (Some title_only)) = true.
Proof.
  assert (Hm : title_only ≠ ∅).
  { intros H. apply (f_equal (λ m : gmap string string, m !! "title")) in H.
    vm_compute in H. discriminate. }
  split.
  - assert (Hs : ∀ v, getattr (new_plugin default_config) "STATUS_KEYS" = Ret v
                      → v = VList STATUS_KEYS)
      by (intros v H; vm_compute in H; discriminate).
    assert (Hd : ∀ v, getattr (new_plugin default_config) "DESCRIPTION_KEY" = Ret v
                      → v = VStr DESCRIPTION_KEY)
      by (intros v H; vm_compute in H; discriminate).
    destruct (missing_field_raises (new_plugin default_config) title_only Hs Hd Hm)
      as (H1 & H2 & _ & _ & H5 & H6).
    refine (conj H1 (conj H2 (conj (H5 _) (H6 _)))).
    + left. reflexivity.
    + reflexivity.
  - assert (Hs : ∀ v, getattr (with_module_constants (new_plugin default_config))
                        "STATUS_KEYS" = Ret v → v = VList STATUS_KEYS)
      by (intros v H; vm_compute in H; injection H as <-; reflexivity).
    assert (Hd : ∀ v, getattr (with_module_constants (new_plugin default_config))
                        "DESCRIPTION_KEY" = Ret v → v = VStr DESCRIPTION_KEY)
      by (intros v H; vm_compute in H; injection H as <-; reflexivity).
    destruct (missing_field_raises (with_module_constants (new_plugin default_config))
                title_only Hs Hd Hm) as (_ & _ & _ & _ & H5 & H6).
    refine (conj (H5 _) (H6 _)).
    + left. reflexivity.
    + reflexivity.
Defined.

End TalkStatus.

(** ** The Justin.tv client *)

Section Client.
Variable w : World.

Lemma JustinApi_init_raises (consumer_key consumer_secret request_token_str
    access_token_str : string) :
  JustinApi_init consumer_key consumer_secret request_token_str access_token_str
  = Raise (AttributeError "JustinApi" "config").
Proof. reflexivity. Qed.

Lemma from_string_raises (s : string) :
  is_raise (JustinApi_from_string w s) = true.
Proof.
  unfold JustinApi_from_string.
  destruct (pickle_loads w s) as [[|a [|b [|c [|d [|? ?]]]]]|]; reflexivity.
Qed.

Lemma open_request_raises (consumer_key consumer_secret : string) (p : Plugin) :
  is_raise (JustinApi_open_request w consumer_key consumer_secret p).1 = true.
Proof.
  unfold JustinApi_open_request, http_request, parse_token, emit, modify, lift,
    mbind, M_bind, mthrow, M_throw, mret, M_ret.
  destruct (http w _ _) as [r|e]; [|reflexivity].
  destruct (token_ok w r); reflexivity.
Qed.


End Client.



(** ** Persisting the credentials *)

Section Persistence.

(** The sibling setters store into the configuration record and save
    it. *)
Lemma set_consumer_key_persists (text : string) (p : Plugin) :
  let p' := (set_consumer_key text p).2 in
  consumer_key (config p') = text ∧ saved p' = config p'.
Proof. split; reflexivity. Qed.

(** With a blob in the record, [load_config] gets no client either: the
    constructor raises. *)
Lemma load_config_with_blob_raises (c : RTMPOutputConfig) :
  let p := new_plugin (with_justin_api_persistent c "BLOB") in
  (load_config demo_world p).1 = Raise (AttributeError "JustinApi" "config")
  ∧ justin_api (load_config demo_world p).2 = None.
Proof. split; reflexivity. Qed.

(** C7: the save callback [set_justin_api_persistent] does not store the
    serialized state in the configuration record.  It returns, the field
    [justin_api_persistent] of the record keeps the value it had, the
    saved copy is that unchanged record, and the text is left in an
    attribute of the plugin object.  So after the callback ran with
    ["BLOB"] on a plugin with the default record, [load_config] finds an
    empty field and builds no client. *)
Theorem save_callback_leaves_record_unchanged (text : string) (p : Plugin) :
  let p' := (set_justin_api_persistent text p).2 in
  let q := (set_justin_api_persistent "BLOB" (new_plugin default_config)).2 in
  (set_justin_api_persistent text p).1 = Ret ()
  ∧ justin_api_persistent (config p') = justin_api_persistent (config p)
  ∧ saved p' = config p
  ∧ attrs p' !! "justin_api_persistent" = Some (VStr text)
  ∧ justin_api_persistent (config q) = ""
  ∧ (load_config demo_world q).1 = Ret ()
  ∧ justin_api (load_config demo_world q).2 = None.
Proof.
  repeat split; try reflexivity.
  cbn. apply lookup_insert_eq.
Qed.

End Persistence.

(** ** The pipeline builder *)

Section Pipeline.
Variable w : World.

(** *** Running the parts *)

Ltac run_monad :=
  unfold element_factory_make, get_config, get_self, emit, modify, lift,
    mbind, M_bind, mret, M_ret, mthrow, M_throw.

Lemma muxer_and_sink_run (metadata : option (gmap string string)) (bin : Bin)
    (p : Plugin) :
  installed w "flvmux" = true → installed w "rtmpsink" = true →
  (metadata = None ∨ is_Some (tags p)) →
  muxer_and_sink w metadata bin p
  = (Ret (bin_add (bin_add bin (muxer_element metadata (tags p)))
            (sink_element (config p)),
          muxer_element metadata (tags p), sink_element (config p)), p).
Proof.
  intros Hm Hs Ht. unfold muxer_and_sink. run_monad. rewrite Hm. cbn beta iota.
  unfold muxer_element.
  destruct metadata as [data|].
  - destruct Ht as [|[t Ht]]; [discriminate|]. rewrite Ht. cbn.
    rewrite Hs. reflexivity.
  - cbn. rewrite Hs. reflexivity.
Qed.

Lemma muxer_and_sink_fail (metadata : option (gmap string string)) (bin : Bin)
    (p : Plugin) :
  installed w "flvmux" && installed w "rtmpsink" = false →
  ∃ e, muxer_and_sink w metadata bin p = (Raise e, p).
Proof.
  intros H. unfold muxer_and_sink. run_monad.
  destruct (installed w "flvmux"); [|eauto]. cbn beta iota.
  destruct metadata as [data|]; [destruct (tags p)|]; cbn; eauto;
    destruct (installed w "rtmpsink"); try discriminate; eauto.
Qed.

Lemma audio_pipeline_run (muxer : Element) (bin : Bin) (p : Plugin) :
  audio_installed w (config p) = true →
  audio_pipeline w muxer bin p
  = (Ret (audio_chain w (config p) muxer bin), after_audio w p).
Proof.
  unfold audio_installed. rewrite !andb_true_iff. intros [[[H1 H2] H3] H4].
  unfold audio_pipeline. run_monad.
  rewrite H1, H2, H3. cbn beta iota. rewrite H4. cbn beta iota.
  unfold audio_chain, audio_elements, audio_codec_element, after_audio,
    has_quality, missing_quality.
  change (el_factory (Element_new (audio_codec (config p)) "audiocodec"))
    with (audio_codec (config p)).
  destruct (py_in "quality" (property_names w (audio_codec (config p))));
    unfold link, bin_add, bin_add_pad; cbn [elements ghost_pads links];
    rewrite <- !app_assoc; reflexivity.
Qed.

Lemma audio_pipeline_fail (muxer : Element) (bin : Bin) (p : Plugin) :
  audio_installed w (config p) = false →
  ∃ e, audio_pipeline w muxer bin p = (Raise e, p).
Proof.
  unfold audio_installed. intros H.
  unfold audio_pipeline. run_monad.
  destruct (installed w "queue"); [|eauto].
  destruct (installed w "audioconvert"); [|eauto].
  destruct (installed w "level"); [|eauto]. cbn beta iota.
  destruct (installed w (audio_codec (config p))); [discriminate|eauto].
Qed.

Lemma video_pipeline_run (muxer : Element) (bin : Bin) (p : Plugin) :
  video_installed w = true →
  video_pipeline w muxer bin p = (Ret (video_chain (config p) muxer bin), p).
Proof.
  unfold video_installed. rewrite andb_true_iff. intros [H1 H2].
  unfold video_pipeline. run_monad. rewrite H1, H2. cbn beta iota.
  unfold video_chain, video_elements, video_codec_element.
  destruct (bool_decide (video_tune (config p) ≠ "none"));
    unfold link, bin_add, bin_add_pad; cbn [elements ghost_pads links];
    rewrite <- !app_assoc; reflexivity.
Qed.

Lemma video_pipeline_fail (muxer : Element) (bin : Bin) (p : Plugin) :
  video_installed w = false →
  ∃ e, video_pipeline w muxer bin p = (Raise e, p).
Proof.
  unfold video_installed. intros H. unfold video_pipeline. run_monad.
  destruct (installed w "queue"); [|eauto].
  destruct (installed w "x264enc"); [discriminate|eauto].
Qed.

(** *** Running [get_output_bin] *)

Lemma bind_run {A B} (m : M A) (f : A → M B) (p : Plugin) (a : A) (p1 : Plugin) :
  m p = (Ret a, p1) → (m ≫= f) p = f a p1.
Proof. intros H. unfold mbind, M_bind. by rewrite H. Qed.

Lemma bind_ret {A B} (a : A) (f : A → M B) (p : Plugin) :
  (mret a ≫= f) p = f a p.
Proof. reflexivity. Qed.

Lemma bind_raise {A B} (m : M A) (f : A → M B) (p : Plugin) (e : exn) (p1 : Plugin) :
  m p = (Raise e, p1) → (m ≫= f) p = (Raise e, p1).
Proof. intros H. unfold mbind, M_bind. by rewrite H. Qed.

Lemma push_requested_eq (cfg : RTMPOutputConfig) :
  push_requested cfg = Ret (push_on cfg).
Proof. reflexivity. Qed.

Lemma after_metadata_config metadata p :
  config (after_metadata w metadata p) = config p.
Proof. by destruct metadata. Qed.

Lemma after_graph_config audio metadata p :
  config (after_graph w audio metadata p) = config p.
Proof.
  unfold after_graph, after_audio. rewrite after_metadata_config.
  destruct audio; [destruct (has_quality w _)|]; cbn;
    apply after_metadata_config.
Qed.

Lemma after_graph_justin_api audio metadata p :
  justin_api (after_graph w audio metadata p) = justin_api p.
Proof.
  unfold after_graph, after_audio.
  destruct audio; [destruct (has_quality w _)|]; by destruct metadata.
Qed.

Lemma after_graph_attrs audio metadata p :
  attrs (after_graph w audio metadata p) = attrs p.
Proof.
  unfold after_graph, after_audio.
  destruct audio; [destruct (has_quality w _)|]; by destruct metadata.
Qed.

Lemma metadata_step (metadata : option (gmap string string)) (p : Plugin) :
  match metadata with
  | Some data => set_metadata w data
  | None => mret ()
  end p = (Ret (), after_metadata w metadata p).
Proof. destruct metadata; [apply set_metadata_run|reflexivity]. Qed.

Lemma after_metadata_tags (metadata : option (gmap string string)) (p : Plugin) :
  metadata = None ∨ is_Some (tags (after_metadata w metadata p)).
Proof. destruct metadata; [right; cbn; eauto|by left]. Qed.

Lemma muxer_element_name metadata t : el_name (muxer_element metadata t) = "muxer".
Proof. by destruct metadata, t. Qed.

Lemma wired_bin_steps (cfg : RTMPOutputConfig) (t : option (gmap string string))
    (audio video : bool) (metadata : option (gmap string string)) :
  let muxer := muxer_element metadata t in
  let sink := sink_element cfg in
  let b0 := bin_add (bin_add empty_bin muxer) sink in
  let b1 := if audio then audio_chain w cfg muxer b0 else b0 in
  let b2 := if video then video_chain cfg muxer b1 else b1 in
  link b2 muxer sink = wired_bin w cfg t audio video metadata.
Proof.
  destruct audio, video; cbn zeta;
    unfold wired_bin, link, video_chain, audio_chain, bin_add, empty_bin,
      audio_links, video_links;
    cbn [elements ghost_pads links]; rewrite muxer_element_name;
    f_equal; rewrite <- ?app_assoc; reflexivity.
Qed.

(** The end of [get_output_bin]: the link to the sink, the test of line 249
    and the push.  [Hcfg] rewrites the configuration of the plugin at that
    point and [Hbin] the bin. *)
Ltac finish_run Hcfg Hbin :=
  unfold get_config, lift, mbind, M_bind;
  rewrite push_requested_eq, !Hcfg;
  unfold mret, M_ret;
  rewrite Hbin; cbn zeta;
  match goal with |- context [push_on ?cfg] => destruct (push_on cfg) end;
  reflexivity.

(** With the element types installed, [get_output_bin] builds the whole
    graph and then, if the configuration asks for it, pushes the channel
    status; it returns the graph unless the push raises. *)
Lemma get_output_bin_run (audio video : bool)
    (metadata : option (gmap string string)) (p : Plugin) :
  all_installed w (config p) audio video = true →
  get_output_bin w audio video metadata p
  = let p1 := after_graph w audio metadata p in
    let b := wired_bin w (config p) (tags (after_metadata w metadata p))
               audio video metadata in
    if push_on (config p) then
      match push_channel_status w metadata p1 with
      | (Ret _, p2) => (Ret b, p2)
      | (Raise e, p2) => (Raise e, p2)
      end
    else (Ret b, p1).
Proof.
  unfold all_installed. rewrite !andb_true_iff. intros [[[Hm Hs] Ha] Hv].
  unfold get_output_bin.
  rewrite (bind_run _ _ p () _ (metadata_step metadata p)).
  rewrite (bind_run _ _ _ _ _
             (muxer_and_sink_run metadata empty_bin _ Hm Hs
                (after_metadata_tags metadata p))).
  rewrite after_metadata_config.
  assert (Hcfg := after_metadata_config metadata p).
  pose proof (wired_bin_steps (config p) (tags (after_metadata w metadata p)))
    as Hbin.
  destruct audio.
  - rewrite <- Hcfg in Ha.
    rewrite (bind_run _ _ _ _ _ (audio_pipeline_run _ _ _ Ha)).
    rewrite Hcfg.
    destruct video.
    + rewrite (bind_run _ _ _ _ _ (video_pipeline_run _ _ _ Hv)).
      finish_run
        (after_graph_config true metadata p : config (after_audio w _) = _)
        (Hbin true true metadata
         : link (video_chain _ _ (audio_chain w _ _ _)) _ _ = _).
    + rewrite bind_ret.
      finish_run
        (after_graph_config true metadata p : config (after_audio w _) = _)
        (Hbin true false metadata : link (audio_chain w _ _ _) _ _ = _).
  - rewrite bind_ret.
    destruct video.
    + rewrite (bind_run _ _ _ _ _ (video_pipeline_run _ _ _ Hv)).
      finish_run Hcfg (Hbin false true metadata : link (video_chain _ _ _) _ _ = _).
    + rewrite bind_ret.
      finish_run Hcfg (Hbin false false metadata : link (bin_add _ _) _ _ = _).
Qed.

(** A part of [get_output_bin] that raises ends [get_output_bin]. *)
Ltac part_raises H :=
  cbn beta iota;
  lazymatch goal with
  | |- ∃ e p', (muxer_and_sink w ?md ?b ≫= ?f) ?q = _ =>
      destruct (muxer_and_sink_fail md b q H) as [? He];
      rewrite (bind_raise _ f q _ _ He); eauto
  | |- ∃ e p', (audio_pipeline w ?m ?b ≫= ?f) ?q = _ =>
      destruct (audio_pipeline_fail m b q H) as [? He];
      rewrite (bind_raise _ f q _ _ He); eauto
  | |- ∃ e p', (video_pipeline w ?m ?b ≫= ?f) ?q = _ =>
      destruct (video_pipeline_fail m b q H) as [? He];
      rewrite (bind_raise _ f q _ _ He); eauto
  end.

Lemma get_output_bin_fail (audio video : bool)
    (metadata : option (gmap string string)) (p : Plugin) :
  all_installed w (config p) audio video = false →
  ∃ e p', get_output_bin w audio video metadata p = (Raise e, p').
Proof.
  unfold all_installed. intros H. unfold get_output_bin.
  rewrite (bind_run _ _ p () _ (metadata_step metadata p)).
  destruct (installed w "flvmux" && installed w "rtmpsink") eqn:Hms;
    [|part_raises Hms].
  apply andb_true_iff in Hms as [Hm Hs].
  rewrite (bind_run _ _ _ _ _
             (muxer_and_sink_run metadata empty_bin _ Hm Hs
                (after_metadata_tags metadata p))).
  rewrite after_metadata_config.
  assert (Hcfg := after_metadata_config metadata p).
  destruct audio.
  - destruct (audio_installed w (config p)) eqn:Ha; rewrite <- Hcfg in Ha;
      [|part_raises Ha].
    rewrite (bind_run _ _ _ _ _ (audio_pipeline_run _ _ _ Ha)).
    destruct video; [|discriminate]. part_raises H.
  - rewrite bind_ret. destruct video; [|discriminate]. part_raises H.
Qed.

(** Whenever [get_output_bin] returns, it returns the wired graph. *)
Lemma get_output_bin_inv (audio video : bool)
    (metadata : option (gmap string string)) (p : Plugin) (b : Bin) (p' : Plugin) :
  get_output_bin w audio video metadata p = (Ret b, p') →
  all_installed w (config p) audio video = true
  ∧ b = wired_bin w (config p) (tags (after_metadata w metadata p))
          audio video metadata.
Proof.
  intros H. destruct (all_installed w (config p) audio video) eqn:E.
  - split; [done|]. rewrite (get_output_bin_run _ _ _ _ E) in H.
    cbn zeta in H. destruct (push_on (config p)).
    + destruct (push_channel_status w metadata _) as [[[]|e] p2]; congruence.
    + congruence.
  - destruct (get_output_bin_fail _ _ metadata _ E) as (e & p0 & H').
    congruence.
Qed.

(** *** Looking elements up in the wired graph *)

Lemma find_name_eq (e : Element) (l : list Element) (name : string) :
  el_name e = name →
  List.find (λ e, String.eqb (el_name e) name) (e :: l) = Some e.
Proof. intros <-. cbn. by rewrite String.eqb_refl. Qed.

Lemma find_name_ne (e : Element) (l : list Element) (name : string) :
  String.eqb (el_name e) name = false →
  List.find (λ e, String.eqb (el_name e) name) (e :: l)
  = List.find (λ e, String.eqb (el_name e) name) l.
Proof. intros H. cbn. by rewrite H. Qed.

Lemma audio_codec_element_name cfg : el_name (audio_codec_element w cfg) = "audiocodec".
Proof. unfold audio_codec_element. by destruct (has_quality w cfg). Qed.

Lemma video_codec_element_name cfg : el_name (video_codec_element cfg) = "videocodec".
Proof. unfold video_codec_element. by destruct (bool_decide _). Qed.

Ltac names :=
  rewrite ?muxer_element_name, ?audio_codec_element_name,
    ?video_codec_element_name; reflexivity.

Ltac find_name :=
  unfold get_by_name, wired_bin, audio_elements, video_elements;
  cbn [elements app];
  repeat first [ rewrite find_name_eq by names
               | rewrite find_name_ne by names ].

Lemma wired_audioqueue cfg t video metadata :
  get_by_name (wired_bin w cfg t true video metadata) "audioqueue"
  = Some (Element_new "queue" "audioqueue").
Proof. find_name. reflexivity. Qed.

Lemma wired_audiocodec cfg t video metadata :
  get_by_name (wired_bin w cfg t true video metadata) "audiocodec"
  = Some (audio_codec_element w cfg).
Proof. find_name. reflexivity. Qed.

Lemma wired_videoqueue cfg t audio metadata :
  get_by_name (wired_bin w cfg t audio true metadata) "videoqueue"
  = Some (Element_new "queue" "videoqueue").
Proof. destruct audio; find_name; reflexivity. Qed.

Lemma wired_videocodec cfg t audio metadata :
  get_by_name (wired_bin w cfg t audio true metadata) "videocodec"
  = Some (video_codec_element cfg).
Proof. destruct audio; find_name; reflexivity. Qed.

Lemma wired_muxer cfg t audio video metadata :
  get_by_name (wired_bin w cfg t audio video metadata) "muxer"
  = Some (muxer_element metadata t).
Proof. find_name. reflexivity. Qed.

(** X1: the muxer of a returned bin merges tags in replace mode, with or
    without metadata; with metadata it carries the recognized tags of the
    metadata, and without metadata it carries no tags, whatever
    [self.tags] holds. *)
Lemma muxer_tags_replace (audio video : bool)
    (metadata : option (gmap string string)) (p : Plugin) (b : Bin) (p' : Plugin) :
  get_output_bin w audio video metadata p = (Ret b, p') →
  ∃ muxer,
    get_by_name b "muxer" = Some muxer
    ∧ el_merge_mode muxer = Some GST_TAG_MERGE_REPLACE
    ∧ match metadata with
      | None => el_tags muxer = None
      | Some data =>
          ∃ t, el_tags muxer = Some (t, GST_TAG_MERGE_REPLACE)
               ∧ ∀ k, t !! k = if tag_exists w k then data !! k else None
      end.
Proof.
  intros H. apply get_output_bin_inv in H as [_ ->].
  eexists. split; [apply wired_muxer|].
  destruct metadata as [data|]; cbn; [|done].
  split; [done|]. eexists. split; [done|]. apply kept_tags_lookup.
Qed.

(** *** Ghost pads *)

(** C5: for every choice of the audio and video flags, so in particular
    for (true, true), (true, false) and (false, true), there is one graph
    that [get_output_bin] can return.  It has exactly one ghost pad per
    enabled media type and none for a disabled one: ["audiosink"] on the
    [sink] pad of [audioqueue] and ["videosink"] on the [sink] pad of
    [videoqueue].  Each of the two is a [queue] element and the first node
    of its chain: the links of the graph are exactly the two chains and
    the link from the muxer to the sink, and no link leads into a queue.
    Whatever [get_output_bin] returns is that graph, and it is returned:
    with the element types of the graph installed, [get_output_bin]
    returns it when the configuration does not ask for the push of the
    channel status, and otherwise returns it unless the push raises, after
    the graph was built. *)
Theorem ghost_pad_per_enabled_media_type (audio video : bool)
    (metadata : option (gmap string string)) (p : Plugin) :
  ∃ b,
    ghost_pads b
    = (if audio
       then [{| gp_name := "audiosink"; gp_element := "audioqueue"; gp_pad := "sink" |}]
       else [])
      ++ (if video
          then [{| gp_name := "videosink"; gp_element := "videoqueue"; gp_pad := "sink" |}]
          else [])
    ∧ links b
      = (if audio
         then [("audioqueue", "audioconvert"); ("audioconvert", "audiolevel");
               ("audiolevel", "audiocodec"); ("audiocodec", "muxer")]
         else [])
        ++ (if video
            then [("videoqueue", "videocodec"); ("videocodec", "muxer")]
            else [])
        ++ [("muxer", "rtmpsink")]
    ∧ (audio = true →
       get_by_name b "audioqueue" = Some (Element_new "queue" "audioqueue"))
    ∧ (video = true →
       get_by_name b "videoqueue" = Some (Element_new "queue" "videoqueue"))
    ∧ (∀ b' p', get_output_bin w audio video metadata p = (Ret b', p') → b' = b)
    ∧ (all_installed w (config p) audio video = true →
       ∃ p1,
         (push_requested (config p) = Ret false →
          get_output_bin w audio video metadata p = (Ret b, p1))
         ∧ (∀ r p', get_output_bin w audio video metadata p = (r, p') →
              r = Ret b
              ∨ ∃ e, r = Raise e
                     ∧ push_channel_status w metadata p1 = (Raise e, p'))).
Proof.
  exists (wired_bin w (config p) (tags (after_metadata w metadata p))
            audio video metadata).
  split; [reflexivity|]. split; [reflexivity|].
  split; [intros ->; apply wired_audioqueue|].
  split; [intros ->; apply wired_videoqueue|].
  split.
  { intros b' p' H. by apply get_output_bin_inv in H as [_ ->]. }
  intros Hinst. exists (after_graph w audio metadata p).
  rewrite (get_output_bin_run _ _ metadata _ Hinst), push_requested_eq. cbn zeta.
  split; [by intros [= ->]|].
  intros r p'. destruct (push_on (config p)).
  - destruct (push_channel_status w metadata _) as [[[]|e] p2];
      intros [= <- <-]; [by left|right; eauto].
  - intros [= <- <-]. by left.
Qed.

(** *** The video encoder *)

(** C8: in the bin that [get_output_bin] returns with video enabled, the
    element [videocodec] is an [x264enc] whose properties are the bitrate
    of the configuration and, only when the configured tune is not
    ["none"], the tune, set to the configured string. *)
Theorem video_tune_is_set_unless_none (audio : bool)
    (metadata : option (gmap string string)) (p : Plugin) (b : Bin) (p' : Plugin) :
  get_output_bin w audio true metadata p = (Ret b, p') →
  ∃ codec,
    get_by_name b "videocodec" = Some codec
    ∧ el_factory codec = "x264enc"
    ∧ el_props codec
      = ("bitrate", VInt (video_bitrate (config p)))
        :: (if bool_decide (video_tune (config p) = "none") then []
            else [("tune", VStr (video_tune (config p)))]).
Proof.
  intros H. apply get_output_bin_inv in H as [_ ->].
  exists (video_codec_element (config p)).
  split; [apply wired_videocodec|].
  unfold video_codec_element.
  destruct (decide (video_tune (config p) = "none")) as [Heq|Hne].
  - rewrite (bool_decide_false _ (λ H, H Heq)), (bool_decide_true _ Heq).
    split; reflexivity.
  - rewrite (bool_decide_true _ Hne), (bool_decide_false _ Hne).
    split; reflexivity.
Qed.

(** *** The audio codec *)

(** C9: with the element types of the graph installed and audio enabled,
    [get_output_bin] builds the audio chain without raising, whether or
    not the selected codec has a [quality] property: the only exception
    that can leave [get_output_bin] is one raised by the push of the
    channel status, after the graph was built.  In the graph the chain is
    fully linked, queue, converter, level, codec, muxer.  A codec without
    the property has no property set and a debug message is logged; a
    codec with it has [quality] set to the configured audio quality. *)
Theorem audio_quality_is_set_when_supported (video : bool)
    (metadata : option (gmap string string)) (p : Plugin) :
  all_installed w (config p) true video = true →
  let cfg := config p in
  let supported := py_in "quality" (property_names w (audio_codec cfg)) in
  ∃ b p1 codec,
    (push_requested cfg = Ret false →
     get_output_bin w true video metadata p = (Ret b, p1))
    ∧ (∀ r p', get_output_bin w true video metadata p = (r, p') →
         r = Ret b
         ∨ ∃ e, r = Raise e ∧ push_channel_status w metadata p1 = (Raise e, p'))
    ∧ get_by_name b "audiocodec" = Some codec
    ∧ el_factory codec = audio_codec cfg
    ∧ el_props codec
      = (if supported then [("quality", VInt (audio_quality cfg))] else [])
    ∧ links b
      = [("audioqueue", "audioconvert"); ("audioconvert", "audiolevel");
         ("audiolevel", "audiocodec"); ("audiocodec", "muxer")]
        ++ (if video
            then [("videoqueue", "videocodec"); ("videocodec", "muxer")]
            else [])
        ++ [("muxer", "rtmpsink")]
    ∧ trace p1
      = trace p
        ++ (if supported then []
            else [LogDebug
                    ("WARNING: Missing property: 'quality' on audiocodec; available: "
                     +:+ join "," (property_names w (audio_codec cfg)))]).
Proof.
  intros Hinst. cbn zeta.
  exists (wired_bin w (config p) (tags (after_metadata w metadata p))
            true video metadata),
    (after_graph w true metadata p), (audio_codec_element w (config p)).
  rewrite (get_output_bin_run _ _ metadata _ Hinst), push_requested_eq. cbn zeta.
  split; [by intros [= ->]|].
  split.
  { intros r p'. destruct (push_on (config p)).
    - destruct (push_channel_status w metadata _) as [[[]|e] p2];
        intros [= <- <-]; [by left|right; eauto].
    - intros [= <- <-]. by left. }
  split; [apply wired_audiocodec|].
  unfold audio_codec_element, after_graph, after_audio, has_quality,
    missing_quality.
  rewrite after_metadata_config.
  destruct (py_in "quality" _); repeat split;
    destruct metadata; cbn; by rewrite ?app_nil_r.
Qed.

(** *** The channel status push *)

Lemma extends_ret {A} (a : A) : extends (mret a).
Proof. intros p. exists []. cbn. by rewrite app_nil_r. Qed.

Lemma extends_throw {A} (e : exn) : extends (mthrow e : M A).
Proof. intros p. exists []. cbn. by rewrite app_nil_r. Qed.

Lemma extends_lift {A} (o : outcome A) : extends (lift o).
Proof. intros p. exists []. cbn. by rewrite app_nil_r. Qed.

Lemma extends_modify (f : Plugin → Plugin) :
  (∀ p, trace (f p) = trace p) → extends (modify f).
Proof. intros Hf p. exists []. cbn. by rewrite Hf, app_nil_r. Qed.

Lemma extends_emit (e : event) : extends (emit e).
Proof. intros p. by exists [e]. Qed.

Lemma extends_bind {A B} (m : M A) (f : A → M B) :
  extends m → (∀ a, extends (f a)) → extends (m ≫= f).
Proof.
  intros Hm Hf p. unfold mbind, M_bind.
  destruct (Hm p) as [evs1 H1]. destruct (m p) as [[a|e] p1]; cbn in *.
  - destruct (Hf a p1) as [evs2 H2]. exists (evs1 ++ evs2).
    by rewrite H2, H1, app_assoc.
  - by exists evs1.
Qed.

Lemma extends_try {A} (body handler : M A) :
  extends body → extends handler → extends (try_except_KeyError body handler).
Proof.
  intros Hb Hh p. unfold try_except_KeyError.
  destruct (Hb p) as [evs1 H1]. destruct (body p) as [[a|e] p1]; cbn in *.
  - by exists evs1.
  - destruct e; try by exists evs1.
    destruct (Hh p1) as [evs2 H2]. exists (evs1 ++ evs2).
    by rewrite H2, H1, app_assoc.
Qed.

Lemma extends_api_self : extends api_self.
Proof. intros p. exists []. unfold api_self. rewrite app_nil_r. by destruct (justin_api p). Qed.

Create HintDb extends discriminated.
Hint Resolve extends_ret extends_throw extends_lift extends_emit
  extends_api_self : extends.

Ltac extends_step :=
  first
    [ apply extends_bind; [|intros ?]
    | apply extends_try
    | apply extends_modify; intros ?; reflexivity
    | match goal with
      | |- extends (if ?c then _ else _) => destruct c
      | |- extends (match ?x with _ => _ end) => destruct x
      end
    | solve [auto with extends] ].

Lemma extends_api_consumer : extends api_consumer.
Proof. unfold api_consumer. repeat extends_step. Qed.

Lemma extends_parse_token s : extends (parse_token w s).
Proof. unfold parse_token. repeat extends_step. Qed.

Lemma extends_http_request method url payload :
  extends (http_request w method url payload).
Proof. unfold http_request. repeat extends_step. Qed.

Lemma extends_modify_api f : extends (modify_api f).
Proof. unfold modify_api. repeat extends_step. Qed.

Hint Resolve extends_api_consumer extends_parse_token extends_http_request
  extends_modify_api : extends.

Lemma extends_set_justin_api_persistent text :
  extends (set_justin_api_persistent text).
Proof. unfold set_justin_api_persistent, config_save. repeat extends_step. Qed.

Hint Resolve extends_set_justin_api_persistent : extends.

Lemma extends_call_save_method : extends (call_save_method w).
Proof. unfold call_save_method, to_string. repeat extends_step. Qed.

Hint Resolve extends_call_save_method : extends.

Lemma extends_obtain_access_token : extends (obtain_access_token w).
Proof. unfold obtain_access_token. repeat extends_step. Qed.

Lemma extends_simplejson_loads result : extends (simplejson_loads w result).
Proof.
  intros p. exists []. unfold simplejson_loads. rewrite app_nil_r.
  destruct (json_loads w result); [done|].
  unfold mbind, M_bind, get_self. by destruct (decode_error_rebound p).
Qed.

Hint Resolve extends_simplejson_loads : extends.

Lemma extends_get_data endpoint : extends (get_data w endpoint).
Proof. unfold get_data. repeat extends_step. Qed.

Lemma extends_set_data endpoint payload : extends (set_data w endpoint payload).
Proof. unfold set_data. repeat extends_step. Qed.

Hint Resolve extends_obtain_access_token extends_get_data extends_set_data
  : extends.

(** Once entered, [set_channel_status] has left its mark on the trace,
    however it ends. *)
Lemma set_channel_status_recorded (status description : string) (p : Plugin) :
  SetChannelStatus status description
  ∈ trace (set_channel_status w status description p).2.
Proof.
  unfold set_channel_status.
  assert (Hrest : ∀ (k : M unit), extends k →
            SetChannelStatus status description
            ∈ trace ((emit (SetChannelStatus status description) ≫= λ _, k) p).2).
  { intros k Hk. unfold mbind, M_bind, emit, modify.
    destruct (Hk (add_event (SetChannelStatus status description) p))
      as [evs Hevs].
    destruct (k _) as [[[]|e] p1]; cbn in *; rewrite Hevs;
      set_solver. }
  apply Hrest. repeat extends_step.
Qed.

Lemma push_on_true (cfg : RTMPOutputConfig) :
  streaming_destination cfg = "justin.tv" → use_justin_api cfg = "yes" →
  push_on cfg = true.
Proof.
  intros Hd Hu. unfold push_on.
  by rewrite (bool_decide_true _ Hd), (bool_decide_true _ Hu).
Qed.

(** C1: with the destination set to Justin.tv and the push of the
    channel properties enabled, a failure of the push is not caught by
    [get_output_bin].  With no client in [self.justin_api], which is the
    state of every plugin that has not been through the authorization,
    the lookup of [set_channel_status] raises [AttributeError]; the
    exception leaves [get_output_bin] and no bin is returned, though all
    the elements were made and linked. *)
Theorem push_failure_escapes_get_output_bin (audio video : bool)
    (metadata : option (gmap string string)) (p : Plugin) :
  all_installed w (config p) audio video = true →
  streaming_destination (config p) = "justin.tv" →
  use_justin_api (config p) = "yes" →
  justin_api p = None →
  (get_output_bin w audio video metadata p).1
  = Raise (AttributeError "NoneType" "set_channel_status").
Proof.
  intros Hinst Hd Hu Hapi.
  rewrite (get_output_bin_run _ _ _ _ Hinst). cbn zeta.
  rewrite (push_on_true _ Hd Hu).
  unfold push_channel_status, get_self, mbind, M_bind.
  rewrite after_graph_justin_api, Hapi. reflexivity.
Qed.

(** *** No client, no platform call *)

Lemma quiet_ret {A} (a : A) : quiet (mret a).
Proof.
  intros p Hp. split; [done|]. split; [done|].
  exists []. split; [by rewrite app_nil_r|]. by intros e ?%elem_of_nil.
Qed.

Lemma quiet_throw {A} (e : exn) : quiet (mthrow e : M A).
Proof.
  intros p Hp. split; [done|]. split; [done|].
  exists []. split; [by rewrite app_nil_r|]. by intros e' ?%elem_of_nil.
Qed.

Lemma quiet_lift {A} (o : outcome A) : quiet (lift o).
Proof.
  intros p Hp. split; [done|]. split; [done|].
  exists []. split; [by rewrite app_nil_r|]. by intros e' ?%elem_of_nil.
Qed.

Lemma quiet_read {A} (f : Plugin → A) : quiet (λ p, (Ret (f p), p)).
Proof.
  intros p Hp. split; [done|]. split; [done|].
  exists []. split; [by rewrite app_nil_r|]. by intros e' ?%elem_of_nil.
Qed.

Lemma quiet_emit_debug (msg : string) : quiet (emit (LogDebug msg)).
Proof.
  intros p Hp. split; [done|]. split; [done|].
  exists [LogDebug msg]. split; [done|].
  intros e ->%list_elem_of_singleton. eauto.
Qed.

Lemma quiet_bind {A B} (m : M A) (f : A → M B) :
  quiet m → (∀ a, quiet (f a)) → quiet (m ≫= f).
Proof.
  intros Hm Hf p Hp. unfold mbind, M_bind.
  destruct (Hm p Hp) as (Hapi & Hattrs & evs1 & Ht1 & Hd1).
  destruct (m p) as [[a|e] p1]; cbn in *.
  - destruct (Hf a p1 Hapi) as (Hapi2 & Hattrs2 & evs2 & Ht2 & Hd2).
    split; [done|]. split; [congruence|].
    exists (evs1 ++ evs2). split; [by rewrite Ht2, Ht1, app_assoc|].
    intros e [?|?]%elem_of_app; auto.
  - split; [done|]. split; [done|]. by exists evs1.
Qed.

Ltac quiet_step :=
  first
    [ apply quiet_bind; [|intros ?]
    | apply quiet_ret
    | apply quiet_throw
    | apply quiet_lift
    | apply quiet_emit_debug
    | apply quiet_read
    | match goal with
      | |- quiet (if ?c then _ else _) => destruct c
      | |- quiet (match ?x with _ => _ end) => destruct x
      | |- quiet (let _ := _ in _) => cbn zeta
      end ].

Lemma quiet_set_metadata (data : gmap string string) : quiet (set_metadata w data).
Proof.
  intros p Hp. rewrite set_metadata_run. cbn.
  split; [done|]. split; [done|].
  exists []. split; [by rewrite app_nil_r|]. by intros e ?%elem_of_nil.
Qed.

Lemma quiet_muxer_and_sink metadata bin : quiet (muxer_and_sink w metadata bin).
Proof.
  unfold muxer_and_sink, element_factory_make, get_config, get_self.
  repeat quiet_step.
Qed.

Lemma quiet_audio_pipeline muxer bin : quiet (audio_pipeline w muxer bin).
Proof.
  unfold audio_pipeline, element_factory_make, get_config. repeat quiet_step.
Qed.

Lemma quiet_video_pipeline muxer bin : quiet (video_pipeline w muxer bin).
Proof.
  unfold video_pipeline, element_factory_make, get_config. repeat quiet_step.
Qed.

(** With no client, the push ends where it looks the method up. *)
Lemma quiet_push_channel_status metadata : quiet (push_channel_status w metadata).
Proof.
  intros p Hp. unfold push_channel_status, get_self, mbind, M_bind.
  rewrite Hp. by apply (quiet_throw (A := unit)).
Qed.

Lemma quiet_get_output_bin (audio video : bool)
    (metadata : option (gmap string string)) :
  quiet (get_output_bin w audio video metadata).
Proof.
  unfold get_output_bin. cbn zeta.
  apply quiet_bind;
    [destruct metadata; [apply quiet_set_metadata|apply quiet_ret]|].
  intros _.
  apply quiet_bind; [apply quiet_muxer_and_sink|].
  intros [[bin muxer] rtmpsink].
  apply quiet_bind;
    [destruct audio; [apply quiet_audio_pipeline|apply quiet_ret]|].
  intros bin1.
  apply quiet_bind;
    [destruct video; [apply quiet_video_pipeline|apply quiet_ret]|].
  intros bin2.
  apply quiet_bind; [apply quiet_read|]. intros cfg.
  apply quiet_bind; [apply quiet_lift|]. intros push.
  apply quiet_bind;
    [destruct push; [apply quiet_push_channel_status|apply quiet_ret]|].
  intros _. apply quiet_ret.
Qed.

(** No call installs a client: [load_config] and [apply_justin_settings]
    raise before their assignment to [self.justin_api], the one in
    [from_string], the other in the lookup of [self.JUSTIN_URL]. *)
Lemma reachable_has_no_client (p : Plugin) :
  reachable w p → justin_api p = None ∧ attrs p !! "JUSTIN_URL" = None.
Proof.
  induction 1 as [cfg stored|c p Hr [Hapi Hurl]]; [done|].
  destruct c; cbn [perform].
  - unfold load_config, IOutput_load_config, get_config, modify, mbind, M_bind.
    cbn [config set_config].
    destruct (bool_decide (justin_api_persistent (saved p) ≠ "")); [|done].
    unfold lift.
    pose proof (from_string_raises w (justin_api_persistent (saved p))) as Hraise.
    destruct (JustinApi_from_string w _) as [api|e]; [discriminate|done].
  - by rewrite set_metadata_run.
  - destruct (quiet_get_output_bin audio video metadata p Hapi)
      as (Hapi' & Hattrs & _).
    by rewrite Hattrs.
  - done.
  - done.
  - done.
  - done.
  - done.
  - done.
  - split; [done|].
    change (<["justin_api_persistent" := VStr text]> (attrs p) !! "JUSTIN_URL" = None).
    by rewrite lookup_insert_ne.
  - unfold apply_justin_settings.
    rewrite (bind_run get_self _ p p p eq_refl).
    erewrite bind_raise; [done|].
    unfold lift, getattr, instance_getattr. by rewrite Hurl.
Qed.


(** *** The shape of the returned graph *)

Lemma wired_names cfg t audio video metadata :
  element_names (wired_bin w cfg t audio video metadata)
  = ["muxer"; "rtmpsink"]
    ++ (if audio then ["audioqueue"; "audioconvert"; "audiolevel"; "audiocodec"]
        else [])
    ++ (if video then ["videoqueue"; "videocodec"] else []).
Proof.
  unfold element_names, wired_bin, audio_elements, video_elements.
  cbn [elements]. destruct audio, video; cbn [app fmap list_fmap];
    rewrite ?muxer_element_name, ?audio_codec_element_name,
      ?video_codec_element_name; reflexivity.
Qed.

(** X2: in a returned bin no two elements share a name, every link joins
    two elements of the bin and every ghost pad sits on an element of the
    bin. *)
Theorem returned_bin_is_closed (audio video : bool)
    (metadata : option (gmap string string)) (p : Plugin) (b : Bin) (p' : Plugin) :
  get_output_bin w audio video metadata p = (Ret b, p') →
  NoDup (element_names b)
  ∧ (∀ src dst, (src, dst) ∈ links b →
       src ∈ element_names b ∧ dst ∈ element_names b)
  ∧ (∀ pad, pad ∈ ghost_pads b → gp_element pad ∈ element_names b).
Proof.
  intros H. apply get_output_bin_inv in H as [_ ->].
  rewrite wired_names. unfold wired_bin. cbn [links ghost_pads].
  unfold audio_links, video_links, audio_pad, video_pad.
  destruct audio, video; cbn [app];
    (split; [apply (bool_decide_unpack _); vm_compute; exact I|]);
    (split; [intros src dst Hin|intros pad Hin]);
    repeat (apply elem_of_cons in Hin as [Hin|Hin];
            [first [injection Hin as -> -> | subst pad];
             cbn; split_and?; apply (bool_decide_unpack _); vm_compute; exact I|]);
    by apply elem_of_nil in Hin.
Qed.

(** X3: in a returned bin each chain is linear and ends in the sink:
    every element but the sink has exactly one outgoing link, and the sink
    has none. *)
Theorem returned_bin_chains_are_linear (audio video : bool)
    (metadata : option (gmap string string)) (p : Plugin) (b : Bin) (p' : Plugin)
    (name : string) :
  get_output_bin w audio video metadata p = (Ret b, p') →
  name ∈ element_names b →
  length (links_from b name) = if bool_decide (name = "rtmpsink") then 0 else 1.
Proof.
  intros H. apply get_output_bin_inv in H as [_ ->].
  rewrite wired_names. unfold links_from, wired_bin. cbn [links].
  unfold audio_links, video_links.
  destruct audio, video; cbn [app]; intros Hin;
    repeat (apply elem_of_cons in Hin as [->|Hin]; [vm_compute; reflexivity|]);
    by apply elem_of_nil in Hin.
Qed.

(** X6: in a returned bin the sink streams to the configured url, taken
    verbatim, the level meter of an audio chain reports every 20 ms and
    the queues are left with their default properties. *)
Theorem sink_location_is_configured_url (audio video : bool)
    (metadata : option (gmap string string)) (p : Plugin) (b : Bin) (p' : Plugin) :
  get_output_bin w audio video metadata p = (Ret b, p') →
  (∃ sink, get_by_name b "rtmpsink" = Some sink
           ∧ el_factory sink = "rtmpsink"
           ∧ el_props sink = [("location", VStr (url (config p)))])
  ∧ (audio = true →
     ∃ level queue,
       get_by_name b "audiolevel" = Some level
       ∧ el_factory level = "level"
       ∧ el_props level = [("interval", VInt 20000000)]
       ∧ get_by_name b "audioqueue" = Some queue ∧ el_props queue = [])
  ∧ (video = true →
     ∃ queue, get_by_name b "videoqueue" = Some queue ∧ el_props queue = []).
Proof.
  intros H. apply get_output_bin_inv in H as [_ ->].
  split; [|split].
  - exists (sink_element (config p)). split; [|done]. find_name. reflexivity.
  - intros ->. eexists _, _. split; [find_name; reflexivity|].
    split; [done|]. split; [done|]. split; [apply wired_audioqueue|done].
  - intros ->. eexists. split; [apply wired_videoqueue|done].
Qed.

(** *** Missing element types *)

Lemma muxer_and_sink_not_found (metadata : option (gmap string string)) (bin : Bin)
    (p : Plugin) :
  (metadata = None ∨ is_Some (tags p)) →
  installed w "flvmux" && installed w "rtmpsink" = false →
  ∃ f, muxer_and_sink w metadata bin p = (Raise (ElementNotFoundError f), p)
       ∧ installed w f = false.
Proof.
  intros Ht H. unfold muxer_and_sink. run_monad.
  destruct (installed w "flvmux") eqn:Hm; [|eauto]. cbn beta iota.
  destruct (installed w "rtmpsink") eqn:Hs; [discriminate|].
  destruct metadata as [data|].
  - destruct Ht as [|[t Ht]]; [discriminate|]. rewrite Ht. cbn. eauto.
  - cbn. eauto.
Qed.

Lemma audio_pipeline_not_found (muxer : Element) (bin : Bin) (p : Plugin) :
  audio_installed w (config p) = false →
  ∃ f, audio_pipeline w muxer bin p = (Raise (ElementNotFoundError f), p)
       ∧ installed w f = false.
Proof.
  unfold audio_installed. intros H.
  unfold audio_pipeline. run_monad.
  destruct (installed w "queue") eqn:H1; [|eauto].
  destruct (installed w "audioconvert") eqn:H2; [|eauto].
  destruct (installed w "level") eqn:H3; [|eauto]. cbn beta iota.
  destruct (installed w (audio_codec (config p))) eqn:H4; [discriminate|eauto].
Qed.

Lemma video_pipeline_not_found (muxer : Element) (bin : Bin) (p : Plugin) :
  video_installed w = false →
  ∃ f, video_pipeline w muxer bin p = (Raise (ElementNotFoundError f), p)
       ∧ installed w f = false.
Proof.
  unfold video_installed. intros H. unfold video_pipeline. run_monad.
  destruct (installed w "queue") eqn:H1; [|eauto].
  destruct (installed w "x264enc") eqn:H2; [discriminate|eauto].
Qed.

Lemma after_graph_trace (audio : bool) (metadata : option (gmap string string))
    (p : Plugin) :
  trace (after_graph w audio metadata p)
  = trace p
    ++ (if audio && negb (has_quality w (config p))
        then [missing_quality w (config p)] else []).
Proof.
  unfold after_graph, after_audio. rewrite after_metadata_config.
  destruct audio; [destruct (has_quality w (config p))|];
    destruct metadata; cbn; by rewrite ?app_nil_r.
Qed.

Lemma after_graph_no_platform_event (audio : bool)
    (metadata : option (gmap string string)) (p : Plugin) (e : event) :
  e ∈ trace (after_graph w audio metadata p) →
  e ∈ trace p ∨ ∃ msg, e = LogDebug msg.
Proof.
  rewrite after_graph_trace. intros [Hin|Hin]%elem_of_app; [by left|right].
  destruct (audio && negb _); [|by apply elem_of_nil in Hin].
  apply list_elem_of_singleton in Hin as ->. unfold missing_quality. eauto.
Qed.

(** A part of [get_output_bin] that finds no factory ends
    [get_output_bin] with that fault. *)
Ltac part_not_found L :=
  cbn beta iota;
  lazymatch goal with
  | |- ∃ f p', (?m ≫= ?k) ?q = _ ∧ _ =>
      destruct L as (f & Hf & Hmissing);
      rewrite (bind_raise m k q _ _ Hf); exists f; eexists;
      split; [reflexivity|]; split; [exact Hmissing|]
  end.

(** X4: when an element type of the graph is not installed,
    [get_output_bin] returns no bin: it raises the fault of the factory for
    a type that is missing, and ends before the channel status push, so
    the client is left alone and neither a request nor a status call is
    made. *)
Theorem missing_element_aborts_before_push (audio video : bool)
    (metadata : option (gmap string string)) (p : Plugin) :
  all_installed w (config p) audio video = false →
  ∃ f p',
    get_output_bin w audio video metadata p = (Raise (ElementNotFoundError f), p')
    ∧ installed w f = false
    ∧ justin_api p' = justin_api p
    ∧ ∀ e, e ∈ trace p' → e ∈ trace p ∨ ∃ msg, e = LogDebug msg.
Proof.
  unfold all_installed. intros H. unfold get_output_bin.
  rewrite (bind_run _ _ p () _ (metadata_step metadata p)).
  assert (Hcfg := after_metadata_config metadata p).
  assert (Hgraph : ∀ a, justin_api (after_graph w a metadata p) = justin_api p
                        ∧ ∀ e, e ∈ trace (after_graph w a metadata p) →
                               e ∈ trace p ∨ ∃ msg, e = LogDebug msg).
  { intros a. split; [apply after_graph_justin_api|].
    intros e. apply after_graph_no_platform_event. }
  destruct (installed w "flvmux" && installed w "rtmpsink") eqn:Hms.
  2: { part_not_found (muxer_and_sink_not_found metadata empty_bin
                         (after_metadata w metadata p)
                         (after_metadata_tags metadata p) Hms).
       exact (Hgraph false). }
  apply andb_true_iff in Hms as [Hm Hs].
  rewrite (bind_run _ _ _ _ _
             (muxer_and_sink_run metadata empty_bin _ Hm Hs
                (after_metadata_tags metadata p))).
  rewrite after_metadata_config.
  destruct audio.
  - destruct (audio_installed w (config p)) eqn:Ha; rewrite <- Hcfg in Ha.
    2: { part_not_found (audio_pipeline_not_found
                           (muxer_element metadata (tags (after_metadata w metadata p)))
                           (bin_add (bin_add empty_bin
                              (muxer_element metadata
                                 (tags (after_metadata w metadata p))))
                              (sink_element (config p)))
                           (after_metadata w metadata p) Ha).
         exact (Hgraph false). }
    rewrite (bind_run _ _ _ _ _ (audio_pipeline_run _ _ _ Ha)).
    destruct video; [|discriminate].
    part_not_found (video_pipeline_not_found
                      (muxer_element metadata (tags (after_metadata w metadata p)))
                      (audio_chain w (config (after_metadata w metadata p))
                         (muxer_element metadata (tags (after_metadata w metadata p)))
                         (bin_add (bin_add empty_bin
                            (muxer_element metadata
                               (tags (after_metadata w metadata p))))
                            (sink_element (config p))))
                      (after_audio w (after_metadata w metadata p)) H).
    exact (Hgraph true).
  - rewrite bind_ret. destruct video; [|discriminate].
    part_not_found (video_pipeline_not_found
                      (muxer_element metadata (tags (after_metadata w metadata p)))
                      (bin_add (bin_add empty_bin
                         (muxer_element metadata
                            (tags (after_metadata w metadata p))))
                         (sink_element (config p)))
                      (after_metadata w metadata p) H).
    exact (Hgraph false).
Qed.

(** *** What [get_output_bin] leaves alone *)

Section Frame.
Context {X : Type} (part : Plugin → X).
Hypothesis part_add_event : ∀ e p, part (add_event e p) = part p.
Hypothesis part_set_attr : ∀ name v p, part (set_attr name v p) = part p.
Hypothesis part_set_saved : ∀ c p, part (set_saved c p) = part p.
Hypothesis part_set_justin_api : ∀ a p, part (set_justin_api a p) = part p.
Hypothesis part_rebind_decode_error : ∀ p, part (rebind_decode_error p) = part p.

Lemma preserves_ret {A} (a : A) : preserves part (mret a).
Proof. by intros p. Qed.

Lemma preserves_throw {A} (e : exn) : preserves part (mthrow e : M A).
Proof. by intros p. Qed.

Lemma preserves_lift {A} (o : outcome A) : preserves part (lift o).
Proof. by intros p. Qed.

Lemma preserves_read {A} (f : Plugin → A) : preserves part (λ p, (Ret (f p), p)).
Proof. by intros p. Qed.

Lemma preserves_api_self : preserves part api_self.
Proof. intros p. unfold api_self. by destruct (justin_api p). Qed.

Lemma preserves_modify (f : Plugin → Plugin) :
  (∀ p, part (f p) = part p) → preserves part (modify f).
Proof. intros Hf p. apply Hf. Qed.

Lemma preserves_emit (e : event) : preserves part (emit e).
Proof. intros p. apply part_add_event. Qed.

Lemma preserves_bind {A B} (m : M A) (f : A → M B) :
  preserves part m → (∀ a, preserves part (f a)) → preserves part (m ≫= f).
Proof.
  intros Hm Hf p. unfold mbind, M_bind.
  specialize (Hm p). destruct (m p) as [[a|e] p1]; cbn in *; [|done].
  by rewrite Hf.
Qed.

Lemma preserves_try {A} (body handler : M A) :
  preserves part body → preserves part handler →
  preserves part (try_except_KeyError body handler).
Proof.
  intros Hb Hh p. unfold try_except_KeyError.
  specialize (Hb p). destruct (body p) as [[a|e] p1]; cbn in *; [done|].
  destruct e; try done. by rewrite Hh.
Qed.

Ltac preserves_step :=
  first
    [ apply preserves_bind; [|intros ?]
    | apply preserves_try
    | apply preserves_ret
    | apply preserves_throw
    | apply preserves_lift
    | apply preserves_emit
    | apply preserves_api_self
    | apply preserves_read
    | apply preserves_modify; intros ?;
      first [apply part_set_attr | apply part_set_saved
            | apply part_set_justin_api | apply part_rebind_decode_error]
    | match goal with
      | |- preserves _ (if ?c then _ else _) => destruct c
      | |- preserves _ (match ?x with _ => _ end) => destruct x
      | |- preserves _ (let _ := _ in _) => cbn zeta
      end ].

Ltac preserves_all :=
  unfold set_channel_status, obtain_access_token, get_data, simplejson_loads,
    set_data, call_save_method, to_string, set_justin_api_persistent, config_save,
    modify_api, http_request, parse_token, api_consumer,
    element_factory_make, get_config, get_self;
  repeat preserves_step.

Lemma preserves_set_channel_status status description :
  preserves part (set_channel_status w status description).
Proof. preserves_all. Qed.

Lemma preserves_push_channel_status metadata :
  preserves part (push_channel_status w metadata).
Proof.
  unfold push_channel_status. apply preserves_bind; [apply preserves_read|].
  intros self. destruct (justin_api self); [|apply preserves_throw].
  repeat (apply preserves_bind; [apply preserves_lift|intros ?]).
  apply preserves_set_channel_status.
Qed.

Lemma preserves_muxer_and_sink metadata bin :
  preserves part (muxer_and_sink w metadata bin).
Proof. unfold muxer_and_sink. preserves_all. Qed.

Lemma preserves_audio_pipeline muxer bin :
  preserves part (audio_pipeline w muxer bin).
Proof. unfold audio_pipeline. preserves_all. Qed.

Lemma preserves_video_pipeline muxer bin :
  preserves part (video_pipeline w muxer bin).
Proof. unfold video_pipeline. preserves_all. Qed.

(** After the metadata step, [get_output_bin] leaves the part alone. *)
Lemma get_output_bin_frame (audio video : bool)
    (metadata : option (gmap string string)) (p : Plugin) :
  part (get_output_bin w audio video metadata p).2
  = part (after_metadata w metadata p).
Proof.
  unfold get_output_bin.
  rewrite (bind_run _ _ p () _ (metadata_step metadata p)).
  match goal with
  | |- part (?m ?q).2 = part ?q => refine ((_ : preserves part m) q)
  end.
  apply preserves_bind; [apply preserves_muxer_and_sink|].
  intros [[bin muxer] rtmpsink].
  apply preserves_bind;
    [destruct audio; [apply preserves_audio_pipeline|apply preserves_ret]|].
  intros bin1.
  apply preserves_bind;
    [destruct video; [apply preserves_video_pipeline|apply preserves_ret]|].
  intros bin2. cbn zeta.
  apply preserves_bind; [apply preserves_read|]. intros cfg.
  apply preserves_bind; [apply preserves_lift|]. intros push.
  apply preserves_bind;
    [destruct push; [apply preserves_push_channel_status|apply preserves_ret]|].
  intros _. apply preserves_ret.
Qed.

End Frame.

(** X5: whatever its arguments and however it ends, [get_output_bin]
    leaves the configuration record as it was, and it leaves in
    [self.tags] the recognized tags of the metadata, or what was there
    when there is no metadata. *)
Theorem get_output_bin_keeps_configuration (audio video : bool)
    (metadata : option (gmap string string)) (p : Plugin) :
  let p' := (get_output_bin w audio video metadata p).2 in
  config p' = config p
  ∧ match metadata with
    | None => tags p' = tags p
    | Some data =>
        ∃ t, tags p' = Some t
             ∧ ∀ k, t !! k = if tag_exists w k then data !! k else None
    end.
Proof.
  cbn zeta. split.
  - rewrite (get_output_bin_frame config) by done.
    apply after_metadata_config.
  - rewrite (get_output_bin_frame tags) by done.
    destruct metadata as [data|]; [|done].
    eexists. split; [reflexivity|]. apply kept_tags_lookup.
Qed.

(** X7: with metadata that is not empty, the push never reaches the
    platform.  On a plugin without an attribute [STATUS_KEYS], with the
    push requested and a client installed, [get_output_bin] builds the
    graph and then raises [AttributeError] while it computes the status:
    [set_channel_status] is not entered and no request is made. *)
Theorem metadata_stops_the_push (audio video : bool)
    (data : gmap string string) (p : Plugin) :
  all_installed w (config p) audio video = true →
  push_requested (config p) = Ret true →
  is_Some (justin_api p) →
  attrs p !! "STATUS_KEYS" = None →
  data ≠ ∅ →
  let r := get_output_bin w audio video (Some data) p in
  r.1 = Raise (AttributeError "RTMPOutput" "STATUS_KEYS")
  ∧ ∀ e, e ∈ trace r.2 → e ∈ trace p ∨ ∃ msg, e = LogDebug msg.
Proof.
  intros Hinst Hpush [api Hapi] Hattr Hdata. cbn zeta.
  rewrite (get_output_bin_run _ _ _ _ Hinst). cbn zeta.
  rewrite push_requested_eq in Hpush. injection Hpush as ->.
  assert (Hraise : push_channel_status w (Some data)
                     (after_graph w audio (Some data) p)
                   = (Raise (AttributeError "RTMPOutput" "STATUS_KEYS"),
                      after_graph w audio (Some data) p)).
  { unfold push_channel_status, get_self, mbind at 1, M_bind at 1.
    rewrite after_graph_justin_api, Hapi.
    unfold mbind at 1, M_bind at 1, lift, get_talk_status, py_not.
    rewrite (bool_decide_false _ Hdata).
    unfold getattr, instance_getattr.
    rewrite after_graph_attrs, Hattr. reflexivity. }
  rewrite Hraise. split; [reflexivity|].
  intros e. apply after_graph_no_platform_event.
Qed.

(** *** The client at work *)

Lemma api_self_run (p : Plugin) (a : JustinApi) :
  justin_api p = Some a → api_self p = (Ret a, p).
Proof. intros H. unfold api_self. by rewrite H. Qed.

Lemma api_consumer_run (p : Plugin) (a : JustinApi) (c : string * string) :
  justin_api p = Some a → api_config a = Some c → api_consumer p = (Ret c, p).
Proof.
  intros Ha Hc. unfold api_consumer.
  rewrite (bind_run _ _ _ _ _ (api_self_run _ _ Ha)). by rewrite Hc.
Qed.

Lemma parse_token_ok (s : string) (p : Plugin) :
  token_ok w s = true → parse_token w s p = (Ret (), p).
Proof. intros H. unfold parse_token. by rewrite H. Qed.

Lemma parse_token_fail (s : string) (p : Plugin) :
  token_ok w s = false → parse_token w s p = (Raise (KeyError "oauth_token"), p).
Proof. intros H. unfold parse_token. by rewrite H. Qed.

Lemma http_request_run (method url : string) (payload : list (string * string))
    (p : Plugin) :
  http_request w method url payload p
  = (http w method url, add_event (HttpRequest method url payload) p).
Proof. reflexivity. Qed.

Lemma get_data_unparsable (endpoint : string) (p : Plugin) (a : JustinApi) :
  justin_api p = Some a →
  token_ok w (access_token_str a) = false →
  get_data w endpoint p
  = (Ret [],
     add_event
       (LogError ("justin.tv API: failed fetch data from endpoint " +:+ endpoint))
       (rebind_decode_error p)).
Proof.
  intros Ha Htok. unfold get_data, try_except_KeyError.
  rewrite (bind_run _ _ _ _ _ (api_self_run _ _ Ha)).
  rewrite (bind_raise _ _ _ _ _ (parse_token_fail _ _ Htok)).
  reflexivity.
Qed.

Lemma get_data_run (endpoint : string) (p : Plugin) (a : JustinApi)
    (c : string * string) (body : string) :
  justin_api p = Some a → api_config a = Some c →
  token_ok w (access_token_str a) = true →
  http w "GET" (api_url endpoint) = Ret body →
  get_data w endpoint p
  = (match json_loads w body with
     | Some data => Ret data
     | None =>
         if decode_error_rebound p then Raise TypeError else Raise JSONDecodeError
     end,
     add_event (HttpRequest "GET" (api_url endpoint) []) p).
Proof.
  intros Ha Hc Htok Hhttp. unfold get_data, try_except_KeyError.
  rewrite (bind_run _ _ _ _ _ (api_self_run _ _ Ha)).
  rewrite (bind_run _ _ _ _ _ (parse_token_ok _ _ Htok)).
  rewrite (bind_run _ _ _ _ _ (api_consumer_run _ _ _ Ha Hc)).
  fold (api_url endpoint).
  rewrite (bind_run _ _ p body _
             (eq_trans (http_request_run _ _ _ _) (f_equal (λ o, (o, _)) Hhttp))).
  unfold simplejson_loads. destruct (json_loads w body); [done|].
  unfold mbind, M_bind, get_self. cbn [decode_error_rebound add_event].
  by destruct (decode_error_rebound p).
Qed.

Lemma get_data_ok (endpoint : string) (p : Plugin) (a : JustinApi)
    (c : string * string) (body : string) (data : list (string * string)) :
  justin_api p = Some a → api_config a = Some c →
  token_ok w (access_token_str a) = true →
  http w "GET" (api_url endpoint) = Ret body →
  json_loads w body = Some data →
  get_data w endpoint p
  = (Ret data, add_event (HttpRequest "GET" (api_url endpoint) []) p).
Proof.
  intros Ha Hc Htok Hhttp Hdata.
  rewrite (get_data_run _ _ _ _ _ Ha Hc Htok Hhttp). by rewrite Hdata.
Qed.

Lemma set_data_run (endpoint : string) (payload : list (string * string))
    (p : Plugin) (a : JustinApi) (c : string * string) (body : string) :
  justin_api p = Some a → api_config a = Some c →
  token_ok w (access_token_str a) = true →
  http w "POST" (api_url endpoint) = Ret body →
  set_data w endpoint payload p
  = (Ret (Some body), add_event (HttpRequest "POST" (api_url endpoint) payload) p).
Proof.
  intros Ha Hc Htok Hhttp. unfold set_data, try_except_KeyError.
  rewrite (bind_run _ _ _ _ _ (api_self_run _ _ Ha)).
  rewrite (bind_run _ _ _ _ _ (parse_token_ok _ _ Htok)).
  rewrite (bind_run _ _ _ _ _ (api_consumer_run _ _ _ Ha Hc)).
  fold (api_url endpoint).
  rewrite (bind_run _ _ p body _
             (eq_trans (http_request_run _ _ _ _) (f_equal (λ o, (o, _)) Hhttp))).
  reflexivity.
Qed.

(** X8: with an access token that does not parse, [get_data] makes no
    request: it logs the failure and returns the empty mapping, and the
    client is left as it was. *)
Theorem get_data_without_token_makes_no_request (endpoint : string) (p : Plugin)
    (a : JustinApi) :
  justin_api p = Some a →
  token_ok w (access_token_str a) = false →
  let r := get_data w endpoint p in
  r.1 = Ret []
  ∧ trace r.2
    = trace p
      ++ [LogError ("justin.tv API: failed fetch data from endpoint " +:+ endpoint)]
  ∧ justin_api r.2 = Some a.
Proof.
  intros Ha Htok. cbn zeta. rewrite (get_data_unparsable _ _ _ Ha Htok).
  done.
Qed.

Lemma try_never_KeyError {A} (body handler : M A) :
  (∀ p k, (handler p).1 ≠ Raise (KeyError k)) →
  ∀ p k, (try_except_KeyError body handler p).1 ≠ Raise (KeyError k).
Proof.
  intros Hh p k. unfold try_except_KeyError.
  destruct (body p) as [[a|e] p1]; [done|].
  destruct e; first [done | apply Hh].
Qed.

Lemma get_data_no_KeyError (endpoint : string) (p : Plugin) (k : string) :
  (get_data w endpoint p).1 ≠ Raise (KeyError k).
Proof. unfold get_data. by apply try_never_KeyError. Qed.

Lemma set_data_no_KeyError (endpoint : string) (payload : list (string * string))
    (p : Plugin) (k : string) :
  (set_data w endpoint payload p).1 ≠ Raise (KeyError k).
Proof. unfold set_data. by apply try_never_KeyError. Qed.

Lemma obtain_access_token_no_KeyError (p : Plugin) (k : string) :
  (obtain_access_token w p).1 ≠ Raise (KeyError k).
Proof. unfold obtain_access_token. by apply try_never_KeyError. Qed.

(** X9: no [KeyError] leaves [get_data], [set_data] or
    [obtain_access_token], whatever the client holds and whatever the
    platform answers. *)
Theorem helpers_catch_KeyError (endpoint : string)
    (payload : list (string * string)) (p : Plugin) (k : string) :
  (get_data w endpoint p).1 ≠ Raise (KeyError k)
  ∧ (set_data w endpoint payload p).1 ≠ Raise (KeyError k)
  ∧ (obtain_access_token w p).1 ≠ Raise (KeyError k).
Proof.
  split; [apply get_data_no_KeyError|].
  split; [apply set_data_no_KeyError|apply obtain_access_token_no_KeyError].
Qed.

(** One step through [set_channel_status] towards a [KeyError]: a helper
    that is run cannot be where it comes from. *)
Ltac caught k :=
  lazymatch goal with
  | |- context [obtain_access_token w ?q] =>
      pose proof (obtain_access_token_no_KeyError q k);
      destruct (obtain_access_token w q) as [[[]|?] ?]; cbn in *; [|congruence]
  | |- context [get_data w ?ep ?q] =>
      pose proof (get_data_no_KeyError ep q k);
      destruct (get_data w ep q) as [[?|?] ?]; cbn in *; [|congruence]
  | |- context [set_data w ?ep ?pl ?q] =>
      pose proof (set_data_no_KeyError ep pl q k);
      destruct (set_data w ep pl q) as [[?|?] ?]; cbn in *;
      [discriminate|congruence]
  | |- context [bool_decide (?d = [])] =>
      destruct (bool_decide (d = [])); [discriminate|]
  | |- context [json_getitem ?d "login"] =>
      unfold lift, json_getitem; destruct (assoc "login" d); [|by intros [= <-]]
  end.

(** X13: the only [KeyError] that leaves [set_channel_status] is the one
    for ['login'], raised when the answer to [account/whoami.json] is an
    object without that field. *)
Theorem only_missing_login_escapes (status description : string) (p : Plugin)
    (k : string) :
  (set_channel_status w status description p).1 = Raise (KeyError k) →
  k = "login".
Proof.
  unfold set_channel_status, mbind, M_bind, emit, modify.
  set (p0 := add_event (SetChannelStatus status description) p).
  unfold api_self at 1.
  destruct (justin_api p0) as [a|]; [|discriminate].
  destruct (bool_decide (access_token_str a = "")); unfold mret, M_ret;
    repeat (caught k; cbn in * ).
Qed.

Lemma emit_run (e : event) (p : Plugin) : emit e p = (Ret (), add_event e p).
Proof. reflexivity. Qed.

Lemma lift_run {A} (o : outcome A) (p : Plugin) : lift o p = (o, p).
Proof. reflexivity. Qed.

(** Running the first computation of a sequence, by the lemma and the
    facts that [tac] supplies. *)
Ltac run tac := erewrite bind_run; [|solve [tac]].

(** X10: with a client whose access token parses and a platform that
    answers, [set_channel_status] returns after exactly three requests, in
    this order: it asks who the user is, reads the channel of that login,
    and posts the status as title and as status together with the
    description.  The client is left as it was. *)
Theorem set_channel_status_updates_the_channel (status description : string)
    (p : Plugin) (a : JustinApi) (c : string * string)
    (who channel answer login : string) (user shown : list (string * string)) :
  justin_api p = Some a →
  api_config a = Some c →
  access_token_str a ≠ "" →
  token_ok w (access_token_str a) = true →
  http w "GET" (api_url "account/whoami.json") = Ret who →
  json_loads w who = Some user →
  assoc "login" user = Some login →
  http w "GET" (api_url ("channel/show/" +:+ login +:+ ".json")) = Ret channel →
  json_loads w channel = Some shown →
  http w "POST" (api_url "channel/update.json") = Ret answer →
  let r := set_channel_status w status description p in
  r.1 = Ret ()
  ∧ trace r.2
    = trace p
      ++ [SetChannelStatus status description;
          HttpRequest "GET" (api_url "account/whoami.json") [];
          HttpRequest "GET" (api_url ("channel/show/" +:+ login +:+ ".json")) [];
          HttpRequest "POST" (api_url "channel/update.json")
            [("title", status); ("status", status); ("description", description)]]
  ∧ justin_api r.2 = Some a.
Proof.
  intros Ha Hc Hne Htok Hwho Huser Hlogin Hshow Hshown Hpost. cbn zeta.
  unfold set_channel_status.
  run ltac:(apply emit_run).
  run ltac:(apply api_self_run; exact Ha).
  rewrite (bool_decide_false _ Hne), bind_ret.
  run ltac:(eapply get_data_ok; [exact Ha|exact Hc|exact Htok|exact Hwho|exact Huser]).
  assert (Hfull : user ≠ []) by (intros ->; discriminate).
  rewrite (bool_decide_false _ Hfull).
  unfold json_getitem. rewrite Hlogin.
  run ltac:(apply lift_run).
  run ltac:(eapply get_data_ok; [exact Ha|exact Hc|exact Htok|exact Hshow|exact Hshown]).
  run ltac:(eapply set_data_run; [exact Ha|exact Hc|exact Htok|exact Hpost]).
  cbn. by rewrite <- !app_assoc.
Qed.

(** X12: when the platform answers [account/whoami.json] with an empty
    object, [set_channel_status] returns after that one request: the
    channel is neither read nor updated. *)
Theorem empty_identity_ends_the_push (status description : string) (p : Plugin)
    (a : JustinApi) (c : string * string) (who : string) :
  justin_api p = Some a →
  api_config a = Some c →
  access_token_str a ≠ "" →
  token_ok w (access_token_str a) = true →
  http w "GET" (api_url "account/whoami.json") = Ret who →
  json_loads w who = Some [] →
  let r := set_channel_status w status description p in
  r.1 = Ret ()
  ∧ trace r.2
    = trace p
      ++ [SetChannelStatus status description;
          HttpRequest "GET" (api_url "account/whoami.json") []].
Proof.
  intros Ha Hc Hne Htok Hwho Huser. cbn zeta.
  unfold set_channel_status.
  run ltac:(apply emit_run).
  run ltac:(apply api_self_run; exact Ha).
  rewrite (bool_decide_false _ Hne), bind_ret.
  run ltac:(eapply get_data_ok; [exact Ha|exact Hc|exact Htok|exact Hwho|exact Huser]).
  cbn. by rewrite <- !app_assoc.
Qed.

Lemma modify_api_run (f : JustinApi → JustinApi) (p : Plugin) (a : JustinApi) :
  justin_api p = Some a →
  modify_api f p = (Ret (), set_justin_api (Some (f a)) p).
Proof.
  intros Ha. unfold modify_api.
  by rewrite (bind_run _ _ _ _ _ (api_self_run _ _ Ha)).
Qed.

(** A token exchange that the platform answers with no token. *)
Lemma obtain_access_token_rejected (p : Plugin) (a : JustinApi)
    (c : string * string) (answer : string) :
  justin_api p = Some a →
  api_config a = Some c →
  token_ok w (request_token_str a) = true →
  http w "GET" access_token_url = Ret answer →
  token_ok w answer = false →
  obtain_access_token w p
  = (Ret (),
     add_event (LogError "justin.tv API: failed to obtain an access token")
       (set_justin_api (Some (set_access_token_str answer a))
          (add_event (HttpRequest "GET" access_token_url []) p))).
Proof.
  intros Ha Hc Hreq Hhttp Hbad. unfold obtain_access_token, try_except_KeyError.
  run ltac:(eapply api_consumer_run; [exact Ha|exact Hc]).
  run ltac:(apply api_self_run; exact Ha).
  run ltac:(apply parse_token_ok; exact Hreq).
  fold access_token_url.
  run ltac:(rewrite http_request_run, Hhttp; reflexivity).
  run ltac:(apply modify_api_run; exact Ha).
  rewrite (bind_raise _ _ _ _ _ (parse_token_fail _ _ Hbad)).
  reflexivity.
Qed.

(** X11: a token exchange that fails is not tried again.  When the
    client has no access token and the platform answers the exchange with
    a non-empty string that is no token, [set_channel_status] stores that
    answer as the access token, logs the two failures and returns; the
    save callback is not called.  The next [set_channel_status] finds an
    access token, skips the exchange, and makes no request at all. *)
Theorem failed_exchange_is_not_retried (status description status' description' : string)
    (p : Plugin) (a : JustinApi) (c : string * string) (answer : string) :
  justin_api p = Some a →
  api_config a = Some c →
  access_token_str a = "" →
  token_ok w (request_token_str a) = true →
  http w "GET" access_token_url = Ret answer →
  token_ok w answer = false →
  answer ≠ "" →
  let first := set_channel_status w status description p in
  let second := set_channel_status w status' description' first.2 in
  first.1 = Ret ()
  ∧ justin_api first.2 = Some (set_access_token_str answer a)
  ∧ attrs first.2 = attrs p ∧ saved first.2 = saved p
  ∧ trace first.2
    = trace p
      ++ [SetChannelStatus status description;
          HttpRequest "GET" access_token_url [];
          LogError "justin.tv API: failed to obtain an access token";
          LogError "justin.tv API: failed fetch data from endpoint account/whoami.json"]
  ∧ second.1 = Ret ()
  ∧ trace second.2
    = trace first.2
      ++ [SetChannelStatus status' description';
          LogError "justin.tv API: failed fetch data from endpoint account/whoami.json"].
Proof.
  intros Ha Hc Hempty Hreq Hhttp Hbad Hne. cbn zeta.
  assert (Hfirst : set_channel_status w status description p
    = (Ret (),
       add_event
         (LogError "justin.tv API: failed fetch data from endpoint account/whoami.json")
         (rebind_decode_error
            (add_event (LogError "justin.tv API: failed to obtain an access token")
               (set_justin_api (Some (set_access_token_str answer a))
                  (add_event (HttpRequest "GET" access_token_url [])
                     (add_event (SetChannelStatus status description) p))))))).
  { unfold set_channel_status.
    run ltac:(apply emit_run).
    run ltac:(apply api_self_run; exact Ha).
    rewrite (bool_decide_true _ Hempty).
    run ltac:(eapply obtain_access_token_rejected;
              [exact Ha|exact Hc|exact Hreq|exact Hhttp|exact Hbad]).
    run ltac:(eapply (get_data_unparsable _ _ (set_access_token_str answer a));
              [reflexivity|exact Hbad]).
    reflexivity. }
  rewrite Hfirst. cbn [fst snd].
  split; [done|]. split; [done|]. split; [done|]. split; [done|].
  split; [cbn; by rewrite <- !app_assoc|].
  unfold set_channel_status.
  run ltac:(apply emit_run).
  run ltac:(apply (api_self_run _ (set_access_token_str answer a)); reflexivity).
  rewrite (bool_decide_false _
             (Hne : access_token_str (set_access_token_str answer a) ≠ "")).
  rewrite bind_ret.
  run ltac:(eapply (get_data_unparsable _ _ (set_access_token_str answer a));
            [reflexivity|exact Hbad]).
  cbn. split; [done|]. by rewrite <- !app_assoc.
Qed.

(** *** The settings panel *)

(** X14: on a plugin without an attribute [JUSTIN_URL],
    [apply_justin_settings] raises [AttributeError] in its first statement,
    whatever the Qt side does: [JUSTIN_URL] is a constant of the module.
    Nothing of the plugin changes: the url and the codec are not set, and
    no authorization is requested. *)
Theorem apply_justin_settings_raises (g : Gui) (p : Plugin) :
  attrs p !! "JUSTIN_URL" = None →
  apply_justin_settings w g p
  = (Raise (AttributeError "RTMPOutput" "JUSTIN_URL"), p).
Proof.
  intros Hattr. unfold apply_justin_settings.
  rewrite (bind_run get_self _ p p p eq_refl).
  apply bind_raise. unfold lift, getattr, instance_getattr.
  rewrite Hattr. reflexivity.
Qed.

(** X15: what the setters of the panel store is what the builder uses.
    After [set_stream_url], [set_video_tune] and [set_audio_codec], which
    always return and leave the saved record equal to the record in
    memory, a bin returned by [get_output_bin] streams to that url, encodes
    the audio with that codec and tunes the video encoder with that preset
    unless it is ["none"]. *)
Theorem setters_feed_the_builder (target tune codec : string)
    (metadata : option (gmap string string)) (p : Plugin) (b : Bin) (p' : Plugin) :
  let settings :=
    set_stream_url target;; set_video_tune tune;; set_audio_codec codec in
  (settings p).1 = Ret ()
  ∧ saved (settings p).2 = config (settings p).2
  ∧ (get_output_bin w true true metadata (settings p).2 = (Ret b, p') →
     ∃ sink audiocodec videocodec,
       get_by_name b "rtmpsink" = Some sink
       ∧ el_props sink = [("location", VStr target)]
       ∧ get_by_name b "audiocodec" = Some audiocodec
       ∧ el_factory audiocodec = codec
       ∧ get_by_name b "videocodec" = Some videocodec
       ∧ el_props videocodec
         = ("bitrate", VInt (video_bitrate (config p)))
           :: (if bool_decide (tune = "none") then []
               else [("tune", VStr tune)])).
Proof.
  cbn zeta. split; [reflexivity|]. split; [reflexivity|].
  intros H. apply get_output_bin_inv in H as [_ ->].
  eexists _, _, _.
  split; [find_name; reflexivity|]. split; [reflexivity|].
  split; [apply wired_audiocodec|].
  split; [unfold audio_codec_element; by destruct (has_quality w _)|].
  split; [apply wired_videocodec|].
  unfold video_codec_element. cbn [config set_config video_tune with_audio_codec
    with_video_tune with_url video_bitrate add_event set_saved].
  destruct (decide (tune = "none")) as [Heq|Hne].
  - by rewrite (bool_decide_false _ (λ H, H Heq)), (bool_decide_true _ Heq).
  - by rewrite (bool_decide_true _ Hne), (bool_decide_false _ Hne).
Qed.

(** X16: the graph depends on the configuration, the flags and the
    metadata alone.  Two calls of [get_output_bin] that return, on plugins
    with the same configuration record, return equal bins: tags left by
    an earlier call, the client and the trace do not show in the graph. *)
Theorem returned_bin_depends_on_configuration (audio video : bool)
    (metadata : option (gmap string string)) (p q : Plugin) (b1 b2 : Bin)
    (p' q' : Plugin) :
  config p = config q →
  get_output_bin w audio video metadata p = (Ret b1, p') →
  get_output_bin w audio video metadata q = (Ret b2, q') →
  b1 = b2.
Proof.
  intros Hcfg H1 H2.
  apply get_output_bin_inv in H1 as [_ ->].
  apply get_output_bin_inv in H2 as [_ ->].
  rewrite Hcfg. by destruct metadata.
Qed.
End Pipeline.

(** ** The properties on the example host *)

Lemma ghost_pad_per_enabled_media_type_witness :
  (∃ b p1,
     get_output_bin demo_world true true None (new_plugin default_config)
     = (Ret b, p1)
     ∧ ghost_pads b
       = [{| gp_name := "audiosink"; gp_element := "audioqueue"; gp_pad := "sink" |};
          {| gp_name := "videosink"; gp_element := "videoqueue"; gp_pad := "sink" |}])
  ∧ (∃ b p1,
       get_output_bin demo_world true false None (new_plugin default_config)
       = (Ret b, p1)
       ∧ ghost_pads b
         = [{| gp_name := "audiosink"; gp_element := "audioqueue"; gp_pad := "sink" |}])
  ∧ (∃ b p1,
       get_output_bin demo_world false true None (new_plugin default_config)
       = (Ret b, p1)
       ∧ ghost_pads b
         = [{| gp_name := "videosink"; gp_element := "videoqueue"; gp_pad := "sink" |}]).
Proof.
  split; [|split].
  - destruct (ghost_pad_per_enabled_media_type demo_world true true None
                (new_plugin default_config)) as (b & Hpads & _ & _ & _ & _ & Hrun).
    destruct (Hrun eq_refl) as (p1 & Hret & _).
    exists b, p1. exact (conj (Hret eq_refl) Hpads).
  - destruct (ghost_pad_per_enabled_media_type demo_world true false None
                (new_plugin default_config)) as (b & Hpads & _ & _ & _ & _ & Hrun).
    destruct (Hrun eq_refl) as (p1 & Hret & _).
    exists b, p1. exact (conj (Hret eq_refl) Hpads).
  - destruct (ghost_pad_per_enabled_media_type demo_world false true None
                (new_plugin default_config)) as (b & Hpads & _ & _ & _ & _ & Hrun).
    destruct (Hrun eq_refl) as (p1 & Hret & _).
    exists b, p1. exact (conj (Hret eq_refl) Hpads).
Defined.

Lemma video_tune_is_set_unless_none_witness :
  ∃ codec,
    get_by_name (wired_bin demo_world faac_film_config None false true None)
      "videocodec" = Some codec
    ∧ el_props codec = [("bitrate", VInt 2400); ("tune", VStr "film")].
Proof.
  assert (H : get_output_bin demo_world false true None (new_plugin faac_film_config)
              = (Ret (wired_bin demo_world faac_film_config None false true None),
                 new_plugin faac_film_config)) by (vm_compute; reflexivity).
  destruct (video_tune_is_set_unless_none demo_world false None
              (new_plugin faac_film_config) _ _ H) as (codec & Hc & _ & Hp).
  exists codec. split; [exact Hc|]. rewrite Hp. reflexivity.
Defined.

Lemma audio_quality_is_set_when_supported_witness :
  (∃ b p1 codec,
     get_output_bin demo_world true true None (new_plugin faac_film_config)
     = (Ret b, p1)
     ∧ get_by_name b "audiocodec" = Some codec
     ∧ el_factory codec = "faac"
     ∧ el_props codec = []
     ∧ trace p1
       = [LogDebug
            "WARNING: Missing property: 'quality' on audiocodec; available: name,bitrate"])
  ∧ (∃ b p1 codec,
       get_output_bin demo_world true true None (new_plugin default_config)
       = (Ret b, p1)
       ∧ get_by_name b "audiocodec" = Some codec
       ∧ el_factory codec = "lame"
       ∧ el_props codec = [("quality", VInt 3)]
       ∧ trace p1 = []).
Proof.
  split.
  - destruct (audio_quality_is_set_when_supported demo_world true None
                (new_plugin faac_film_config) eq_refl)
      as (b & p1 & codec & Hrun & _ & Hc & Hf & Hp & _ & Ht).
    exists b, p1, codec.
    exact (conj (Hrun eq_refl) (conj Hc (conj Hf (conj Hp Ht)))).
  - destruct (audio_quality_is_set_when_supported demo_world true None
                (new_plugin default_config) eq_refl)
      as (b & p1 & codec & Hrun & _ & Hc & Hf & Hp & _ & Ht).
    exists b, p1, codec.
    exact (conj (Hrun eq_refl) (conj Hc (conj Hf (conj Hp Ht)))).
Defined.

Lemma push_failure_escapes_get_output_bin_witness :
  (get_output_bin demo_world true true None (new_plugin justin_config)).1
  = Raise (AttributeError "NoneType" "set_channel_status").
Proof.
  apply (push_failure_escapes_get_output_bin demo_world true true None
           (new_plugin justin_config)); reflexivity.
Defined.

(** A failure inside [set_channel_status] escapes too.  With a client
    whose token parses, the answer of the server to [account/whoami.json]
    is no JSON: [get_data] catches [KeyError] alone, so the
    [JSONDecodeError] leaves [get_output_bin]. *)
Example json_error_escapes_get_output_bin :
  (get_output_bin demo_world true true None justin_plugin).1
  = Raise JSONDecodeError.
Proof. vm_compute. reflexivity. Qed.

(** What is caught: an access token that does not parse makes [get_data]
    log an error and return an empty mapping, [set_channel_status] returns
    and the bin is returned. *)
Example unparsable_token_is_logged :
  (get_output_bin demo_world false true None malformed_token_plugin).1
  = Ret (wired_bin demo_world justin_config None false true None)
  ∧ trace (get_output_bin demo_world false true None malformed_token_plugin).2
    = [SetChannelStatus "" "";
       LogError "justin.tv API: failed fetch data from endpoint account/whoami.json"].
Proof. split; vm_compute; reflexivity. Qed.


(** The name [simplejson.decoder.JSONDecodeError] after [get_data] has
    caught a [KeyError]: a later answer that is no JSON raises
    [TypeError], where on a fresh interpreter it raises
    [JSONDecodeError]. *)
Example decode_error_is_rebound :
  decode_error_rebound
    (get_data demo_world "account/whoami.json" malformed_token_plugin).2 = true
  ∧ (get_data demo_world "account/whoami.json"
       (set_justin_api (Some demo_api)
          (get_data demo_world "account/whoami.json" malformed_token_plugin).2)).1
    = Raise TypeError
  ∧ (get_data demo_world "account/whoami.json" justin_plugin).1
    = Raise JSONDecodeError.
Proof. repeat split; vm_compute; reflexivity. Qed.

(** ** Further properties of the helpers and of [load_config] *)

(** X17: on a plugin without the attributes [STATUS_KEYS] and
    [DESCRIPTION_KEY], [get_talk_status] and [get_description] raise
    [AttributeError] for every metadata mapping that is not empty, whatever
    its fields. *)
Theorem status_helpers_raise_on_any_metadata (p : Plugin) (m : gmap string string) :
  attrs p !! "STATUS_KEYS" = None →
  attrs p !! "DESCRIPTION_KEY" = None →
  m ≠ ∅ →
  get_talk_status p (Some m) = Raise (AttributeError "RTMPOutput" "STATUS_KEYS")
  ∧ get_description p (Some m)
    = Raise (AttributeError "RTMPOutput" "DESCRIPTION_KEY").
Proof.
  intros Hs Hd Hm. unfold get_talk_status, get_description, py_not.
  rewrite (bool_decide_false _ Hm).
  unfold getattr, instance_getattr. rewrite Hs, Hd. split; reflexivity.
Qed.

Lemma status_helpers_raise_on_any_metadata_witness :
  get_talk_status (new_plugin default_config) (Some title_only)
  = Raise (AttributeError "RTMPOutput" "STATUS_KEYS")
  ∧ get_description (new_plugin default_config) (Some title_only)
    = Raise (AttributeError "RTMPOutput" "DESCRIPTION_KEY").
Proof.
  apply (status_helpers_raise_on_any_metadata (new_plugin default_config)
           title_only eq_refl eq_refl).
  intros H. apply (f_equal (λ m : gmap string string, m !! "title")) in H.
  vm_compute in H. discriminate.
Defined.

(** X18: [load_config] never installs a client.  It replaces the record
    in memory by the saved one and leaves [self.justin_api] as it was: with
    an empty blob in the saved record it returns, and with any other blob
    it raises, in [from_string]. *)
Theorem load_config_installs_no_client (w : World) (p : Plugin) :
  let r := load_config w p in
  config r.2 = saved p
  ∧ justin_api r.2 = justin_api p
  ∧ (justin_api_persistent (saved p) = "" → r.1 = Ret ())
  ∧ (justin_api_persistent (saved p) ≠ "" → is_raise r.1 = true).
Proof.
  cbn zeta. unfold load_config, IOutput_load_config, get_config, modify,
    mbind, M_bind. cbn [config set_config].
  destruct (decide (justin_api_persistent (saved p) = "")) as [Heq|Hne].
  - rewrite (bool_decide_false _ (λ H, H Heq)). done.
  - rewrite (bool_decide_true _ Hne). unfold lift.
    pose proof (from_string_raises w (justin_api_persistent (saved p))) as Hr.
    destruct (JustinApi_from_string w _) as [api|e]; [discriminate|].
    done.
Qed.

Lemma load_config_installs_no_client_witness :
  (load_config demo_world (new_plugin default_config)).1 = Ret ()
  ∧ is_raise (load_config demo_world
                (new_plugin (with_justin_api_persistent default_config "BLOB"))).1
    = true.
Proof.
  split.
  - apply (load_config_installs_no_client demo_world (new_plugin default_config)).
    reflexivity.
  - apply (load_config_installs_no_client demo_world
             (new_plugin (with_justin_api_persistent default_config "BLOB"))).
    discriminate.
Defined.

(** ** Further properties on the example hosts *)

Lemma muxer_tags_replace_witness :
  ∃ muxer t,
    get_by_name (demo_bin true true (Some talk_metadata)) "muxer" = Some muxer
    ∧ el_merge_mode muxer = Some GST_TAG_MERGE_REPLACE
    ∧ el_tags muxer = Some (t, GST_TAG_MERGE_REPLACE)
    ∧ t !! "artist" = Some "A".
Proof.
  assert (H : get_output_bin demo_world true true (Some talk_metadata) (new_plugin default_config)
              = (Ret (demo_bin true true (Some talk_metadata)),
                 after_graph demo_world true (Some talk_metadata) (new_plugin default_config)))
    by (vm_compute; reflexivity).
  destruct (muxer_tags_replace demo_world true true (Some talk_metadata)
              (new_plugin default_config) _ _ H)
    as (muxer & Hm & Hmode & t & Ht & Hk).
  exists muxer, t. split; [exact Hm|]. split; [exact Hmode|].
  split; [exact Ht|]. rewrite Hk. reflexivity.
Defined.

Lemma returned_bin_is_closed_witness :
  NoDup (element_names (demo_bin true true None))
  ∧ "audiocodec" ∈ element_names (demo_bin true true None)
  ∧ "muxer" ∈ element_names (demo_bin true true None).
Proof.
  assert (H : get_output_bin demo_world true true None (new_plugin default_config)
              = (Ret (demo_bin true true None),
                 after_graph demo_world true None (new_plugin default_config)))
    by (vm_compute; reflexivity).
  destruct (returned_bin_is_closed demo_world true true None
              (new_plugin default_config) _ _ H)
    as (Hnodup & Hlinks & _).
  split; [exact Hnodup|].
  apply (Hlinks "audiocodec" "muxer").
  apply (bool_decide_unpack _). vm_compute. exact I.
Defined.

Lemma returned_bin_chains_are_linear_witness :
  length (links_from (demo_bin true true None) "muxer") = 1
  ∧ length (links_from (demo_bin true true None) "rtmpsink") = 0.
Proof.
  assert (H : get_output_bin demo_world true true None (new_plugin default_config)
              = (Ret (demo_bin true true None),
                 after_graph demo_world true None (new_plugin default_config)))
    by (vm_compute; reflexivity).
  split.
  - apply (returned_bin_chains_are_linear demo_world true true None
             (new_plugin default_config) _ _ "muxer" H).
    apply (bool_decide_unpack _). vm_compute. exact I.
  - apply (returned_bin_chains_are_linear demo_world true true None
             (new_plugin default_config) _ _ "rtmpsink" H).
    apply (bool_decide_unpack _). vm_compute. exact I.
Defined.

Lemma missing_element_aborts_before_push_witness :
  ∃ f,
    (get_output_bin no_x264_world true true None (new_plugin justin_config)).1
    = Raise (ElementNotFoundError f)
    ∧ installed no_x264_world f = false.
Proof.
  destruct (missing_element_aborts_before_push no_x264_world true true None
              (new_plugin justin_config) eq_refl) as (f & p' & Hr & Hf & _).
  exists f. rewrite Hr. split; [reflexivity|exact Hf].
Defined.

Lemma sink_location_is_configured_url_witness :
  ∃ sink,
    get_by_name (demo_bin false true None) "rtmpsink" = Some sink
    ∧ el_props sink = [("location", VStr "")].
Proof.
  assert (H : get_output_bin demo_world false true None (new_plugin default_config)
              = (Ret (demo_bin false true None),
                 after_graph demo_world false None (new_plugin default_config)))
    by (vm_compute; reflexivity).
  destruct (sink_location_is_configured_url demo_world false true None
              (new_plugin default_config) _ _ H)
    as ((sink & Hs & _ & Hp) & _).
  exists sink. split; [exact Hs|exact Hp].
Defined.

Lemma talk_metadata_not_empty : talk_metadata ≠ ∅.
Proof.
  intros H. apply (f_equal (λ m : gmap string string, m !! "title")) in H.
  vm_compute in H. discriminate.
Defined.

Lemma metadata_stops_the_push_witness :
  (get_output_bin demo_world true true (Some talk_metadata) justin_plugin).1
  = Raise (AttributeError "RTMPOutput" "STATUS_KEYS").
Proof.
  apply (metadata_stops_the_push demo_world true true talk_metadata justin_plugin
           eq_refl eq_refl (ex_intro _ demo_api eq_refl) eq_refl
           talk_metadata_not_empty).
Defined.

Lemma get_data_without_token_makes_no_request_witness :
  (get_data demo_world "account/whoami.json" malformed_token_plugin).1 = Ret []
  ∧ trace (get_data demo_world "account/whoami.json" malformed_token_plugin).2
    = [LogError "justin.tv API: failed fetch data from endpoint account/whoami.json"].
Proof.
  destruct (get_data_without_token_makes_no_request demo_world
              "account/whoami.json" malformed_token_plugin _ eq_refl eq_refl)
    as (Hr & Ht & _).
  split; [exact Hr|exact Ht].
Defined.

Lemma set_channel_status_updates_the_channel_witness :
  (set_channel_status working_world "A - T" "C" justin_plugin).1 = Ret ()
  ∧ trace (set_channel_status working_world "A - T" "C" justin_plugin).2
    = [SetChannelStatus "A - T" "C";
       HttpRequest "GET" "http://api.justin.tv/api/account/whoami.json" [];
       HttpRequest "GET" "http://api.justin.tv/api/channel/show/bob.json" [];
       HttpRequest "POST" "http://api.justin.tv/api/channel/update.json"
         [("title", "A - T"); ("status", "A - T"); ("description", "C")]].
Proof.
  destruct (set_channel_status_updates_the_channel working_world "A - T" "C"
              justin_plugin demo_api ("key", "secret") "WHOAMI" "CHANNEL" "OK" "bob"
              [("login", "bob")] [("login", "bob"); ("title", "old")]
              eq_refl eq_refl ltac:(discriminate) eq_refl eq_refl eq_refl eq_refl
              eq_refl eq_refl eq_refl) as (Hr & Ht & _).
  split; [exact Hr|exact Ht].
Defined.

Lemma failed_exchange_is_not_retried_witness :
  (set_channel_status rejecting_world "s" "d" unexchanged_plugin).1 = Ret ()
  ∧ trace (set_channel_status rejecting_world "s" "d"
             (set_channel_status rejecting_world "s" "d" unexchanged_plugin).2).2
    = trace (set_channel_status rejecting_world "s" "d" unexchanged_plugin).2
      ++ [SetChannelStatus "s" "d";
          LogError "justin.tv API: failed fetch data from endpoint account/whoami.json"].
Proof.
  destruct (failed_exchange_is_not_retried rejecting_world "s" "d" "s" "d"
              unexchanged_plugin _ ("key", "secret") "Invalid OAuth Request"
              eq_refl eq_refl eq_refl eq_refl eq_refl eq_refl ltac:(discriminate))
    as (Hr & _ & _ & _ & _ & _ & Ht).
  split; [exact Hr|exact Ht].
Defined.

Lemma empty_identity_ends_the_push_witness :
  (set_channel_status empty_world "s" "d" justin_plugin).1 = Ret ()
  ∧ trace (set_channel_status empty_world "s" "d" justin_plugin).2
    = [SetChannelStatus "s" "d";
       HttpRequest "GET" "http://api.justin.tv/api/account/whoami.json" []].
Proof.
  destruct (empty_identity_ends_the_push empty_world "s" "d" justin_plugin
              demo_api ("key", "secret") "{}"
              eq_refl eq_refl ltac:(discriminate) eq_refl eq_refl eq_refl)
    as (Hr & Ht).
  split; [exact Hr|exact Ht].
Defined.

Lemma only_missing_login_escapes_witness :
  (set_channel_status refusing_world "s" "d" justin_plugin).1
  = Raise (KeyError "login")
  ∧ "login" = "login".
Proof.
  assert (H : (set_channel_status refusing_world "s" "d" justin_plugin).1
              = Raise (KeyError "login")) by (vm_compute; reflexivity).
  split; [exact H|].
  exact (only_missing_login_escapes refusing_world "s" "d" justin_plugin "login" H).
Defined.

Lemma apply_justin_settings_raises_witness :
  apply_justin_settings demo_world silent_gui (new_plugin default_config)
  = (Raise (AttributeError "RTMPOutput" "JUSTIN_URL"), new_plugin default_config).
Proof.
  apply (apply_justin_settings_raises demo_world silent_gui
           (new_plugin default_config)).
  reflexivity.
Defined.

Lemma setters_feed_the_builder_witness :
  ∃ b p' sink audiocodec videocodec,
    get_output_bin demo_world true true None
      ((set_stream_url "rtmp://example.org/live";; set_video_tune "film";;
        set_audio_codec "faac") (new_plugin default_config)).2 = (Ret b, p')
    ∧ get_by_name b "rtmpsink" = Some sink
    ∧ el_props sink = [("location", VStr "rtmp://example.org/live")]
    ∧ get_by_name b "audiocodec" = Some audiocodec
    ∧ el_factory audiocodec = "faac"
    ∧ get_by_name b "videocodec" = Some videocodec
    ∧ el_props videocodec = [("bitrate", VInt 2400); ("tune", VStr "film")].
Proof.
  destruct (get_output_bin demo_world true true None
              ((set_stream_url "rtmp://example.org/live";; set_video_tune "film";;
                set_audio_codec "faac") (new_plugin default_config)).2)
    as [[b|e] p'] eqn:H; [|vm_compute in H; discriminate].
  destruct (setters_feed_the_builder demo_world "rtmp://example.org/live" "film"
              "faac" None (new_plugin default_config) b p') as (_ & _ & Hb).
  destruct (Hb H) as (sink & ac & vc & H1 & H2 & H3 & H4 & H5 & H6).
  exists b, p', sink, ac, vc.
  exact (conj eq_refl (conj H1 (conj H2 (conj H3 (conj H4 (conj H5 H6)))))).
Defined.

Lemma returned_bin_depends_on_configuration_witness :
  demo_bin true true None
  = wired_bin demo_world default_config (Some talk_metadata) true true None.
Proof.
  assert (H : get_output_bin demo_world true true None (new_plugin default_config)
              = (Ret (demo_bin true true None),
                 after_graph demo_world true None (new_plugin default_config)))
    by (vm_compute; reflexivity).
  assert (H' : get_output_bin demo_world true true None
                 (set_tags (Some talk_metadata) (new_plugin default_config))
               = (Ret (wired_bin demo_world default_config (Some talk_metadata)
                         true true None),
                  set_tags (Some talk_metadata) (new_plugin default_config)))
    by (vm_compute; reflexivity).
  exact (returned_bin_depends_on_configuration demo_world true true None
           (new_plugin default_config)
           (set_tags (Some talk_metadata) (new_plugin default_config))
           _ _ _ _ eq_refl H H').
Defined.
